(** * Invoice server actions ([src/app/lib/actions.ts])

    A shallow embedding of the four server actions of the dashboard
    ([createInvoice], [updateInvoice], [deleteInvoice], [authenticate])
    together with the parts of their runtime that decide what they return:

    - JavaScript numbers are IEEE 754 binary64 values, taken from the
      Standard Library's [SpecFloat] (53 bits of precision, [emax] 1024);
    - [Number(_)], which [z.coerce.number()] applies to the raw form value,
      follows ECMAScript's StringToNumber;
    - the three Zod schemas used by [InvoiceFormSchema] follow Zod 3
      ([ZodString], [ZodNumber] with [coerce] and a [gt] check, [ZodEnum]),
      including the error map built from [invalid_type_error];
    - the database, the path cache, navigation and the sign-in provider are
      a world with an explicit event trace; their failures are decided by
      an environment the actions cannot inspect.

    JavaScript strings are Rocq strings; text outside ASCII is read as its
    UTF-8 encoding. *)

From Stdlib Require Import ZArith String Ascii List Bool Lia.
From Stdlib Require Import Floats.SpecFloat.
From stdpp Require Import base option list strings gmap.

Open Scope string_scope.

(** ** JavaScript numbers *)

Module JsNumber.

Local Open Scope Z_scope.

Definition prec : Z := 53.
Definition emax : Z := 1024.

Definition number : Type := spec_float.

Definition NaN : number := S754_nan.
Definition Infinity (neg : bool) : number := S754_infinity neg.

(** The number closest to the integer [n] (exact for |n| <= 2^53). *)
Definition of_Z (n : Z) : number := binary_normalize prec emax n 0 false.

Definition is_nan (x : number) : bool :=
  match x with S754_nan => true | _ => false end.

(** [x * y] and [x <= y] of JavaScript. *)
Definition mul (x y : number) : number := SFmul prec emax x y.
Definition leb (x y : number) : bool := SFleb x y.

(** The number closest to [m * 10^k], for a decimal literal with digits
    [m] and decimal exponent [k]; [neg] is the literal's sign. *)
Definition of_decimal (neg : bool) (m : Z) (k : Z) : number :=
  match m with
  | Z0 => S754_zero neg
  | Zneg _ => S754_nan
  | Zpos p =>
      match k with
      | Zneg j =>
          let '(q, e, l) :=
            SFdiv_core_binary prec emax (Zpos p) 0 (Z.pow_pos 10 j) 0 in
          binary_round_aux prec emax neg q e l
      | _ => binary_round prec emax neg (Z.to_pos (Zpos p * 10 ^ k)) 0
      end
  end.

(** [Math.round]: the integer closest to [x], ties towards +Infinity;
    NaN, the infinities and the zeros are returned as they are, and a
    result that rounds to zero keeps the sign of [x]. *)
Definition Math_round (x : number) : number :=
  match x with
  | S754_finite s m (Zneg j) =>
      let d := Z.pow_pos 2 j in
      let n := (2 * cond_Zopp s (Zpos m) + d) / (2 * d) in
      binary_normalize prec emax n 0 s
  | _ => x
  end.

(** *** StringToNumber *)

Definition is_digit (c : ascii) : bool :=
  let n := N_of_ascii c in (48 <=? n)%N && (n <=? 57)%N.

Definition digit_value (c : ascii) : Z := Z.of_N (N_of_ascii c) - 48.

(** Value of a hexadecimal digit, [None] for any other character. *)
Definition hex_value (c : ascii) : option Z :=
  let n := N_of_ascii c in
  if (48 <=? n)%N && (n <=? 57)%N then Some (Z.of_N n - 48)
  else if (65 <=? n)%N && (n <=? 70)%N then Some (Z.of_N n - 55)
  else if (97 <=? n)%N && (n <=? 102)%N then Some (Z.of_N n - 87)
  else None.

(** StrWhiteSpaceChar: TAB, LF, VT, FF, CR and SPACE... *)
Definition is_ws1 (c : ascii) : bool :=
  let n := N_of_ascii c in
  ((9 <=? n)%N && (n <=? 13)%N) || (n =? 32)%N.

(** ...U+00A0 (no-break space), in UTF-8... *)
Definition is_ws2 (c1 c2 : ascii) : bool :=
  (N_of_ascii c1 =? 194)%N && (N_of_ascii c2 =? 160)%N.

(** ...and U+1680, U+2000 to U+200A, U+2028, U+2029, U+202F, U+205F,
    U+3000 and U+FEFF, in UTF-8. *)
Definition is_ws3 (c1 c2 c3 : ascii) : bool :=
  let a := N_of_ascii c1 in
  let b := N_of_ascii c2 in
  let c := N_of_ascii c3 in
  ((a =? 225) && (b =? 154) && (c =? 128))%N
  || ((a =? 226)%N && (b =? 128)%N
      && (((128 <=? c)%N && (c <=? 138)%N)
          || (c =? 168)%N || (c =? 169)%N || (c =? 175)%N))
  || ((a =? 226) && (b =? 129) && (c =? 159))%N
  || ((a =? 227) && (b =? 128) && (c =? 128))%N
  || ((a =? 239) && (b =? 187) && (c =? 191))%N.

(** Drops the white space at the start of [s]. *)
Fixpoint skip_ws (s : string) : string :=
  match s with
  | EmptyString => s
  | String c1 s1 =>
      if is_ws1 c1 then skip_ws s1
      else
        match s1 with
        | EmptyString => s
        | String c2 s2 =>
            if is_ws2 c1 c2 then skip_ws s2
            else
              match s2 with
              | EmptyString => s
              | String c3 s3 =>
                  if is_ws3 c1 c2 c3 then skip_ws s3 else s
              end
        end
  end.

Definition only_ws (s : string) : bool :=
  match skip_ws s with EmptyString => true | _ => false end.

(** Reads the longest run of digits of base [base] at the start of [s]:
    the run's value on top of [acc], its length, and the rest. *)
Fixpoint read_digits (value : ascii -> option Z) (base : Z)
    (s : string) (acc : Z) (len : Z) : Z * Z * string :=
  match s with
  | EmptyString => (acc, len, s)
  | String c s' =>
      match value c with
      | Some d => read_digits value base s' (base * acc + d) (len + 1)
      | None => (acc, len, s)
      end
  end.

Definition dec_value (c : ascii) : option Z :=
  if is_digit c then Some (digit_value c) else None.

Definition bin_value (c : ascii) : option Z :=
  match hex_value c with
  | Some d => if d <? 2 then Some d else None
  | None => None
  end.

Definition oct_value (c : ascii) : option Z :=
  match hex_value c with
  | Some d => if d <? 8 then Some d else None
  | None => None
  end.

(** NonDecimalIntegerLiteral after its two-character prefix: at least one
    digit, then only white space. *)
Definition non_decimal (value : ascii -> option Z) (base : Z)
    (s : string) : number :=
  let '(v, len, rest) := read_digits value base s 0 0 in
  if (0 <? len) && only_ws rest then of_Z v else NaN.

(** ExponentPart: [e] or [E], an optional sign, at least one digit.
    Returns the exponent and the rest; an absent or ill-formed part
    leaves the input where it is, with exponent 0. *)
Definition read_exponent (s : string) : Z * string :=
  match s with
  | String c s1 =>
      if (c =? "e")%char || (c =? "E")%char then
        let '(neg, s2) :=
          match s1 with
          | String c1 s1' =>
              if (c1 =? "-")%char then (true, s1')
              else if (c1 =? "+")%char then (false, s1')
              else (false, s1)
          | EmptyString => (false, s1)
          end in
        let '(v, len, rest) := read_digits dec_value 10 s2 0 0 in
        if 0 <? len then (cond_Zopp neg v, rest) else (0, s)
      else (0, s)
  | EmptyString => (0, s)
  end.

(** StrUnsignedDecimalLiteral, then only white space. *)
Definition unsigned_decimal (neg : bool) (s : string) : number :=
  if String.prefix "Infinity" s then
    if only_ws (String.substring 8 (String.length s - 8) s)
    then Infinity neg else NaN
  else
    let '(i, ilen, s1) := read_digits dec_value 10 s 0 0 in
    let '(m, flen, s2) :=
      match s1 with
      | String "." s1' => read_digits dec_value 10 s1' i 0
      | _ => (i, 0, s1)
      end in
    if 0 <? ilen + flen then
      let '(e, rest) := read_exponent s2 in
      if only_ws rest then of_decimal neg m (e - flen) else NaN
    else NaN.

(** StrNumericLiteral at the start of a string without leading white
    space. *)
Definition numeric_literal (s : string) : number :=
  match s with
  | String "0" (String "x" s') | String "0" (String "X" s') =>
      non_decimal hex_value 16 s'
  | String "0" (String "o" s') | String "0" (String "O" s') =>
      non_decimal oct_value 8 s'
  | String "0" (String "b" s') | String "0" (String "B" s') =>
      non_decimal bin_value 2 s'
  | String "+" s' => unsigned_decimal false s'
  | String "-" s' => unsigned_decimal true s'
  | _ => unsigned_decimal false s
  end.

(** [Number(s)] for a string [s]: the empty or all-white-space string is
    [+0], a numeric literal between white space is its value, anything
    else is NaN. *)
Definition StringToNumber (s : string) : number :=
  match skip_ws s with
  | EmptyString => S754_zero false
  | t => numeric_literal t
  end.

End JsNumber.

(** ** Submitted forms *)

Module Form.

(** An uploaded file; the actions never look inside one. *)
Record File := { file_name : string }.

(** [FormDataEntryValue = string | File]. *)
Inductive FormDataEntryValue :=
| EntryString (s : string)
| EntryFile (f : File).

(** A [FormData] is an ordered list of named entries; a name may occur
    more than once. *)
Definition FormData : Type := list (string * FormDataEntryValue).

(** [formData.get(name)]: the value of the first entry called [name],
    [None] (JavaScript's [null]) when there is none. *)
Fixpoint get (formData : FormData) (name : string)
    : option FormDataEntryValue :=
  match formData with
  | [] => None
  | (k, v) :: rest => if String.eqb k name then Some v else get rest name
  end.

(** [Number(v)] for a value obtained from [get]: [null] is [+0], a string
    goes through StringToNumber, and a [File], an object whose string
    form is ["[object File]"], is NaN. *)
Definition Number (v : option FormDataEntryValue) : JsNumber.number :=
  match v with
  | None => S754_zero false
  | Some (EntryString s) => JsNumber.StringToNumber s
  | Some (EntryFile _) => JsNumber.NaN
  end.

End Form.

(** ** The schema library *)

Module Zod.

Import Form.

Inductive ZodIssueCode := invalid_type | invalid_enum_value | too_small.

Record ZodIssue := {
  code : ZodIssueCode;
  path : list string;
  message : string
}.

(** A schema's parse: the parsed value, or the issues it raised. *)
Definition ParseReturn (A : Type) : Type := list ZodIssue + A.

(** The error map a schema gets from [{ invalid_type_error: msg }]: it
    replaces the default message of an [invalid_type] issue and of no
    other. (A [required_error] would apply to [undefined] data, which
    [FormData.get] never returns.) *)
Definition customMap (invalid_type_error : option string)
    (c : ZodIssueCode) (defaultError : string) : string :=
  match c, invalid_type_error with
  | invalid_type, Some msg => msg
  | _, _ => defaultError
  end.

(** [util.joinValues]: the strings quoted and separated by [" | "]. *)
Fixpoint joinValues (values : list string) : string :=
  match values with
  | [] => ""
  | [v] => "'" +:+ v +:+ "'"
  | v :: rest => "'" +:+ v +:+ "' | " +:+ joinValues rest
  end.

(** [z.string(params)]: any string is accepted, the empty one too; a
    value of another type raises [invalid_type]. *)
Definition ZodString_parse (invalid_type_error : option string)
    (input : option FormDataEntryValue) : ParseReturn string :=
  match input with
  | Some (EntryString s) => inr s
  | None =>
      inl [ {| code := invalid_type; path := [];
               message := customMap invalid_type_error invalid_type
                            "Expected string, received null" |} ]
  | Some (EntryFile _) =>
      inl [ {| code := invalid_type; path := [];
               message := customMap invalid_type_error invalid_type
                            "Expected string, received object" |} ]
  end.

(** [z.coerce.number().gt(value, { message })]: the input is replaced by
    [Number(input)]; NaN raises [invalid_type] with the default message;
    then the check [data <= value] raises [too_small] with [message]. *)
Definition ZodNumber_coerce_gt_parse (value : JsNumber.number)
    (msg : string) (input : option FormDataEntryValue)
    : ParseReturn JsNumber.number :=
  let data := Number input in
  if JsNumber.is_nan data then
    inl [ {| code := invalid_type; path := [];
             message := "Expected number, received nan" |} ]
  else if JsNumber.leb data value then
    inl [ {| code := too_small; path := []; message := msg |} ]
  else inr data.

(** [values.indexOf(data) === -1] *)
Definition not_in_values (values : list string) (data : string) : bool :=
  negb (existsb (String.eqb data) values).

(** [z.enum(values, params)]: a value that is not a string raises
    [invalid_type]; a string outside [values] raises
    [invalid_enum_value], whose message the [invalid_type_error] of
    [params] does not replace. *)
Definition ZodEnum_parse (values : list string)
    (invalid_type_error : option string)
    (input : option FormDataEntryValue) : ParseReturn string :=
  match input with
  | Some (EntryString s) =>
      if not_in_values values s then
        inl [ {| code := invalid_enum_value; path := [];
                 message :=
                   customMap invalid_type_error invalid_enum_value
                     ("Invalid enum value. Expected " +:+ joinValues values
                      +:+ ", received '" +:+ s +:+ "'") |} ]
      else inr s
  | None =>
      inl [ {| code := invalid_type; path := [];
               message :=
                 customMap invalid_type_error invalid_type
                   ("Expected " +:+ joinValues values
                    +:+ ", received null") |} ]
  | Some (EntryFile _) =>
      inl [ {| code := invalid_type; path := [];
               message :=
                 customMap invalid_type_error invalid_type
                   ("Expected " +:+ joinValues values
                    +:+ ", received object") |} ]
  end.

(** The issues of the property [key] of an object, with [key] put in
    front of their paths. *)
Definition issues_at {A} (key : string) (r : ParseReturn A)
    : list ZodIssue :=
  match r with
  | inl issues =>
      map (fun i => {| code := code i; path := key :: path i;
                       message := message i |}) issues
  | inr _ => []
  end.

(** [error.flatten().fieldErrors]: for each issue with a non-empty path,
    its message is pushed on the list kept under the path's head. *)
Definition push_field_error (fieldErrors : gmap string (list string))
    (sub : ZodIssue) : gmap string (list string) :=
  match path sub with
  | [] => fieldErrors
  | k :: _ =>
      <[k := (default [] (fieldErrors !! k) ++ [message sub])%list]>
        fieldErrors
  end.

Definition fieldErrors (issues : list ZodIssue)
    : gmap string (list string) :=
  fold_left push_field_error issues ∅.

End Zod.

(** ** The invoices table *)

Module Db.

(** A row of [invoices(id, customer_id, amount, status, date)], holding
    the values the statements were given. *)
Record InvoiceRow := {
  id : string;
  customer_id : string;
  amount : JsNumber.number;
  status : string;
  date : string
}.

(** The three statements of [actions.ts], with their parameters. *)
Inductive Statement :=
| INSERT (customer_id : string) (amount : JsNumber.number)
    (status : string) (date : string)
| UPDATE (customer_id : string) (amount : JsNumber.number)
    (status : string) (where_id : string)
| DELETE (where_id : string).

Definition set_fields (c : string) (a : JsNumber.number) (s : string)
    (r : InvoiceRow) : InvoiceRow :=
  {| id := id r; customer_id := c; amount := a; status := s;
     date := date r |}.

(** What a statement that succeeds does to the table; [fresh] is the id
    the database gives to an inserted row. *)
Definition execute (fresh : string) (q : Statement)
    (rows : list InvoiceRow) : list InvoiceRow :=
  match q with
  | INSERT c a s d =>
      (rows ++ [ {| id := fresh; customer_id := c; amount := a;
                    status := s; date := d |} ])%list
  | UPDATE c a s i =>
      map (fun r => if String.eqb (id r) i then set_fields c a s r else r)
        rows
  | DELETE i => List.filter (fun r => negb (String.eqb (id r) i)) rows
  end.

End Db.

(** ** Effects of a server action *)

Module Runtime.

Import Form.

(** What a call can throw: an instance of next-auth's [AuthError] with
    its [type], the error [redirect] throws to leave the action, or any
    other value. *)
Inductive JsError :=
| AuthError (type : string)
| RedirectError (url : string)
| OtherError (what : string).

Inductive Logged :=
| LogError (error : JsError)
| LogFormData (formData : FormData).

(** What an action does to the outside, in the order it does it. A
    statement is recorded with the error it failed with, if any. *)
Inductive Event :=
| Sql (q : Db.Statement) (failure : option JsError)
| ConsoleLog (x : Logged)
| RevalidatePath (path : string)
| Redirect (url : string)
| SignIn (provider : string) (formData : FormData).

(** What the actions cannot decide: whether the database rejects a
    statement (and with which error), the id it gives a new row, the
    clock, and whether the sign-in provider throws. *)
Record Env := {
  sql_failure : Db.Statement -> list Db.InvoiceRow -> option JsError;
  new_id : list Db.InvoiceRow -> string;
  now_toISOString : string;
  signIn_failure : string -> FormData -> option JsError
}.

Record World := {
  invoices : list Db.InvoiceRow;
  events : list Event
}.

Inductive Completion (A : Type) :=
| Normal (a : A)
| Throw (e : JsError).
Arguments Normal {A} a.
Arguments Throw {A} e.

Definition Action (A : Type) : Type := Env -> World -> Completion A * World.

Definition ret {A} (a : A) : Action A := fun _ w => (Normal a, w).

Definition bind {A B} (m : Action A) (k : A -> Action B) : Action B :=
  fun env w =>
    match m env w with
    | (Normal a, w') => k a env w'
    | (Throw e, w') => (Throw e, w')
    end.

Definition throw {A} (e : JsError) : Action A := fun _ w => (Throw e, w).

(** [try { body } catch (error) { handler }] *)
Definition try_catch {A} (body : Action A) (handler : JsError -> Action A)
    : Action A :=
  fun env w =>
    match body env w with
    | (Normal a, w') => (Normal a, w')
    | (Throw e, w') => handler e env w'
    end.

Definition emit (ev : Event) : Action unit :=
  fun _ w =>
    (Normal tt, {| invoices := invoices w;
                   events := (events w ++ [ev])%list |}).

(** [await sql`...`]: one statement, applied as a whole or not at all. *)
Definition sql (q : Db.Statement) : Action unit :=
  fun env w =>
    match sql_failure env q (invoices w) with
    | Some e =>
        (Throw e, {| invoices := invoices w;
                     events := (events w ++ [Sql q (Some e)])%list |})
    | None =>
        (Normal tt,
         {| invoices := Db.execute (new_id env (invoices w)) q (invoices w);
            events := (events w ++ [Sql q None])%list |})
    end.

Definition console_log (x : Logged) : Action unit := emit (ConsoleLog x).

Definition revalidatePath (path : string) : Action unit :=
  emit (RevalidatePath path).

(** [redirect(url)] never returns: it throws. *)
Definition redirect {A} (url : string) : Action A :=
  bind (emit (Redirect url)) (fun _ => throw (RedirectError url)).

(** [await signIn(provider, formData)] *)
Definition signIn (provider : string) (formData : FormData) : Action unit :=
  bind (emit (SignIn provider formData))
    (fun _ env w =>
       match signIn_failure env provider formData with
       | Some e => (Throw e, w)
       | None => (Normal tt, w)
       end).

(** [s.split('T')[0]] *)
Fixpoint split_T_0 (s : string) : string :=
  match s with
  | EmptyString => EmptyString
  | String c s' =>
      if (c =? "T")%char then EmptyString else String c (split_T_0 s')
  end.

(** [new Date().toISOString().split('T')[0]] *)
Definition today : Action string :=
  fun env w => (Normal (split_T_0 (now_toISOString env)), w).

End Runtime.

Declare Scope action_scope.
Delimit Scope action_scope with action.
Notation "'let!' x ':=' m 'in' k" :=
  (Runtime.bind m (fun x => k))
  (at level 10, x pattern, m at level 100, k at level 200) : action_scope.

(** ** The server actions *)

Module Actions.

Import Form Zod Runtime.
Local Open Scope action_scope.

Definition invoicesPath : string := "/dashboard/invoices".

Record ActionState := {
  message : option string;
  errors : option (gmap string (list string))
}.

(** The data of a form that passed validation. *)
Record InvoiceForm := {
  customerId : string;
  amount : JsNumber.number;
  status : string
}.

(** The fields of [InvoiceFormSchema] that the actions keep. *)
Definition InvoiceFormSchema_customerId
    : option FormDataEntryValue -> ParseReturn string :=
  ZodString_parse (Some "Please select a customer.").

Definition InvoiceFormSchema_amount
    : option FormDataEntryValue -> ParseReturn JsNumber.number :=
  ZodNumber_coerce_gt_parse (S754_zero false)
    "Please enter an amount greater than $0.".

Definition InvoiceFormSchema_status
    : option FormDataEntryValue -> ParseReturn string :=
  ZodEnum_parse ["pending"; "paid"]
    (Some "Please select an invoice status").

(** [InvoiceFormSchema.omit({ id: true, date: true }).safeParse(_)] on an
    object with the properties [customerId], [amount] and [status]: the
    three properties are parsed in this order and all their issues kept. *)
Definition InvoiceFormSchema_omit_safeParse
    (raw_customerId raw_amount raw_status : option FormDataEntryValue)
    : list ZodIssue + InvoiceForm :=
  let c := InvoiceFormSchema_customerId raw_customerId in
  let a := InvoiceFormSchema_amount raw_amount in
  let s := InvoiceFormSchema_status raw_status in
  match c, a, s with
  | inr c', inr a', inr s' =>
      inr {| customerId := c'; amount := a'; status := s' |}
  | _, _, _ =>
      inl (issues_at "customerId" c ++ issues_at "amount" a
           ++ issues_at "status" s)%list
  end.

Definition CreateInvoice_safeParse := InvoiceFormSchema_omit_safeParse.
Definition UpdateInvoice_safeParse := InvoiceFormSchema_omit_safeParse.

Definition createInvoice (_ : ActionState) (formData : FormData)
    : Action ActionState :=
  match CreateInvoice_safeParse (get formData "customerId")
          (get formData "amount") (get formData "status") with
  | inl error =>
      ret {| errors := Some (fieldErrors error);
             message := Some "Missing Fields. Failed to Create Invoice." |}
  | inr data =>
      let amountInCents := JsNumber.mul (amount data) (JsNumber.of_Z 100) in
      let! date := today in
      let! returned :=
        try_catch
          (let! _ := sql (Db.INSERT (customerId data) amountInCents
                            (status data) date) in
           ret None)
          (fun error =>
             let! _ := console_log (LogError error) in
             ret (Some {| message :=
                            Some "Database Error: Failed to Create Invoice.";
                          errors := None |})) in
      match returned with
      | Some result => ret result
      | None =>
          let! _ := revalidatePath invoicesPath in
          redirect invoicesPath
      end
  end.

Definition updateInvoice (id : string) (_ : ActionState)
    (formData : FormData) : Action ActionState :=
  match UpdateInvoice_safeParse (get formData "customerId")
          (get formData "amount") (get formData "status") with
  | inl error =>
      ret {| errors := Some (fieldErrors error);
             message := Some "Missing fields. Failed to update invoice" |}
  | inr data =>
      let amountInCents :=
        JsNumber.Math_round
          (JsNumber.mul (amount data) (JsNumber.of_Z 100)) in
      let! returned :=
        try_catch
          (let! _ := sql (Db.UPDATE (customerId data) amountInCents
                            (status data) id) in
           ret None)
          (fun error =>
             let! _ := console_log (LogError error) in
             ret (Some {| message :=
                            Some "Database Error: Failed to Update Invoice.";
                          errors := None |})) in
      match returned with
      | Some result => ret result
      | None =>
          let! _ := revalidatePath invoicesPath in
          redirect invoicesPath
      end
  end.

Definition deleteInvoice (id : string) : Action ActionState :=
  try_catch
    (let! _ := sql (Db.DELETE id) in
     let! _ := revalidatePath "/dashboard/invoices" in
     ret {| message := Some "Deleted Invoice."; errors := None |})
    (fun error =>
       let! _ := console_log (LogError error) in
       ret {| message := Some " Database Error: Failed to Delete Invoice";
              errors := None |}).

(** The result is [None] for JavaScript's [undefined], which the action
    returns when [signIn] does not throw. *)
Definition authenticate (_ : option string) (formData : FormData)
    : Action (option string) :=
  try_catch
    (let! _ := console_log (LogFormData formData) in
     let! _ := signIn "credentials" formData in
     ret None)
    (fun error =>
       match error with
       | AuthError type =>
           if String.eqb type "CredentialsSignin"
           then ret (Some "Invalid credentials.")
           else ret (Some "Something went wrong.")
       | _ => throw error
       end).

End Actions.

(** ** Observations used in the statements *)

Module Observe.

Import Form Zod Runtime Actions.

(** The messages of the issues filed under the field [k]. *)
Fixpoint messages_at (k : string) (issues : list ZodIssue) : list string :=
  match issues with
  | [] => []
  | i :: rest =>
      match path i with
      | k' :: _ =>
          if String.eqb k' k then Zod.message i :: messages_at k rest
          else messages_at k rest
      | [] => messages_at k rest
      end
  end.

Definition issues_of {A} (r : ParseReturn A) : list ZodIssue :=
  match r with inl issues => issues | inr _ => [] end.

(** A field of [fieldErrors] is absent, never an empty list. *)
Definition field_of_messages (l : list string) : option (list string) :=
  match l with [] => None | _ => Some l end.

(** The issues of the three fields of a form, in the schema's order. *)
Definition all_issues (c a s : option FormDataEntryValue) : list ZodIssue :=
  (issues_at "customerId" (InvoiceFormSchema_customerId c)
   ++ issues_at "amount" (InvoiceFormSchema_amount a)
   ++ issues_at "status" (InvoiceFormSchema_status s))%list.

(** The events an action added to the trace of [w]. *)
Definition emitted {A} (act : Action A) (env : Env) (w : World)
    : list Event :=
  drop (length (events w)) (events (snd (act env w))).

(** The statements among some events, with whether each succeeded. *)
Definition statement_of (ev : Event) : option Db.Statement :=
  match ev with Sql q _ => Some q | _ => None end.

Definition statements_sent {A} (act : Action A) (env : Env) (w : World)
    : list Db.Statement :=
  omap statement_of (emitted act env w).

(** The statement [createInvoice] sends for validated [data]. *)
Definition insert_of (env : Env) (data : InvoiceForm) : Db.Statement :=
  Db.INSERT (customerId data)
    (JsNumber.mul (amount data) (JsNumber.of_Z 100))
    (status data) (split_T_0 (now_toISOString env)).

(** The statement [updateInvoice] sends for validated [data]. *)
Definition update_of (id : string) (data : InvoiceForm) : Db.Statement :=
  Db.UPDATE (customerId data)
    (JsNumber.Math_round (JsNumber.mul (amount data) (JsNumber.of_Z 100)))
    (status data) id.

(** The world after the statement [q] succeeded and the action went on
    to invalidate the listing and to redirect. *)
Definition after_success (env : Env) (w : World) (q : Db.Statement)
    : World :=
  {| invoices := Db.execute (new_id env (invoices w)) q (invoices w);
     events := (events w ++ [ Sql q None; RevalidatePath invoicesPath;
                              Redirect invoicesPath ])%list |}.

(** The world after the statement [q] failed with [e] and the action
    logged the error. *)
Definition after_failure (w : World) (q : Db.Statement) (e : JsError)
    : World :=
  {| invoices := invoices w;
     events := (events w ++ [ Sql q (Some e);
                              ConsoleLog (LogError e) ])%list |}.

End Observe.

(** ** Sample inputs *)

Module Sample.

Import Form Runtime Actions.

Definition invoice_form (customerId amount status : string) : FormData :=
  [ ("customerId", EntryString customerId);
    ("amount", EntryString amount);
    ("status", EntryString status) ].

(** A database that accepts every statement, and one that rejects
    every statement. *)
Definition env_ok : Env :=
  {| sql_failure := fun _ _ => None;
     new_id := fun _ => "inv-2";
     now_toISOString := "2024-05-06T07:08:09.000Z";
     signIn_failure := fun _ _ => Some (AuthError "CredentialsSignin") |}.

Definition env_down : Env :=
  {| sql_failure := fun _ _ => Some (OtherError "connection refused");
     new_id := fun _ => "inv-2";
     now_toISOString := "2024-05-06T07:08:09.000Z";
     signIn_failure := fun _ _ => Some (OtherError "fetch failed") |}.

Definition one_invoice : World :=
  {| invoices :=
       [ {| Db.id := "inv-1"; Db.customer_id := "c0";
            Db.amount := JsNumber.of_Z 500; Db.status := "pending";
            Db.date := "2020-01-01" |} ];
     events := [] |}.

(** A sign-in provider that fails with [failure], if any. *)
Definition env_signIn (failure : option JsError) : Env :=
  {| sql_failure := fun _ _ => None;
     new_id := fun _ => "inv-2";
     now_toISOString := "2024-05-06T07:08:09.000Z";
     signIn_failure := fun _ _ => failure |}.

Definition no_state : ActionState := {| message := None; errors := None |}.

Definition stale_state : ActionState :=
  {| message := Some "Missing Fields. Failed to Create Invoice.";
     errors := Some {[ "amount" := ["Expected number, received nan"] ]} |}.

Definition form_12_34 : FormData := invoice_form "c1" "12.34" "paid".
Definition form_12_345 : FormData := invoice_form "c1" "12.345" "paid".
Definition form_negative_amount : FormData := invoice_form "c1" "-5" "paid".
Definition form_empty_amount : FormData := invoice_form "c1" "" "paid".
Definition form_empty_customer : FormData := invoice_form "" "10" "paid".
Definition form_draft : FormData := invoice_form "c1" "10" "draft".

(** What validation makes of [form_12_34]. *)
Definition data_12_34 : InvoiceForm :=
  {| customerId := "c1"; amount := JsNumber.StringToNumber "12.34";
     status := "paid" |}.

(** No customer was selected: the form has no [customerId] entry. *)
Definition form_no_customer : FormData :=
  [ ("amount", EntryString "10"); ("status", EntryString "paid") ].


End Sample.

(** ** The invoice edit page *)

Module EditPage.

Import Runtime.

(** One entry of the [breadcrumbs] prop; [active] is [None] where the
    page leaves it out. *)
Record Breadcrumb := {
  label : string;
  href : string;
  active : option bool
}.

(** What the page renders inside [<main>]: the props of [Breadcrumbs] and
    of [Form]. The invoice and customer records are those of
    [@/app/lib/data]; the page passes them on without reading them. *)
Record Rendered (Invoice Customer : Type) := {
  breadcrumbs : list Breadcrumb;
  form_invoice : Invoice;
  form_customers : list Customer
}.
Arguments breadcrumbs {Invoice Customer} _.
Arguments form_invoice {Invoice Customer} _.
Arguments form_customers {Invoice Customer} _.

(** How a render ends: with the element, with the error [notFound] throws,
    or with the reason a fetch rejected with. *)
Inductive PageOutcome (Invoice Customer : Type) :=
| Render (view : Rendered Invoice Customer)
| NotFound
| Rejected (reason : JsError).
Arguments Render {Invoice Customer} view.
Arguments NotFound {Invoice Customer}.
Arguments Rejected {Invoice Customer} reason.

(** The two fetches of [@/app/lib/data], as the page sees them: each
    resolves ([inr]) or rejects ([inl]); [fetchInvoiceById] resolves to
    [None] (JavaScript's [undefined]) when no invoice has the id. When
    both reject, [invoice_rejects_first] says which rejection came
    first. *)
Record DataLayer (Invoice Customer : Type) := {
  fetchInvoiceById : string -> JsError + option Invoice;
  fetchCustomers : JsError + list Customer;
  invoice_rejects_first : bool
}.
Arguments fetchInvoiceById {Invoice Customer} _ _.
Arguments fetchCustomers {Invoice Customer} _.
Arguments invoice_rejects_first {Invoice Customer} _.

(** [await Promise.all([p1, p2])]: both values when both promises
    resolve, otherwise the reason of the rejection that came first. *)
Definition Promise_all {A B} (first_rejects_first : bool)
    (p1 : JsError + A) (p2 : JsError + B) : JsError + A * B :=
  match p1, p2 with
  | inr a, inr b => inr (a, b)
  | inl e, inr _ => inl e
  | inr _, inl e => inl e
  | inl e1, inl e2 => inl (if first_rejects_first then e1 else e2)
  end.

Definition Page {Invoice Customer} (data : DataLayer Invoice Customer)
    (id : string) : PageOutcome Invoice Customer :=
  match Promise_all (invoice_rejects_first data) (fetchInvoiceById data id)
          (fetchCustomers data) with
  | inl reason => Rejected reason
  | inr (None, _) => NotFound
  | inr (Some invoice, customers) =>
      Render
        {| breadcrumbs :=
             [ {| label := "Invoices"; href := "/dashboard/invoices";
                  active := None |};
               {| label := "Edit Invoice";
                  href := "/dashboard/invoices/" +:+ id +:+ "/edit";
                  active := Some true |} ];
           form_invoice := invoice;
           form_customers := customers |}
  end.

End EditPage.

(** ** More sample inputs *)

Module MoreSamples.

Import Form Runtime Actions.

(** An environment whose clock reads [now] and in which nothing fails. *)
Definition env_at (now : string) : Env :=
  {| sql_failure := fun _ _ => None;
     new_id := fun _ => "inv-2";
     now_toISOString := now;
     signIn_failure := fun _ _ => None |}.

Definition two_invoices : World :=
  {| invoices :=
       [ {| Db.id := "inv-1"; Db.customer_id := "c0";
            Db.amount := JsNumber.of_Z 500; Db.status := "pending";
            Db.date := "2020-01-01" |};
         {| Db.id := "inv-7"; Db.customer_id := "c3";
            Db.amount := JsNumber.of_Z 1999; Db.status := "paid";
            Db.date := "2021-02-03" |} ];
     events := [ RevalidatePath "/dashboard/invoices" ] |}.

Definition form_infinite_amount : FormData :=
  Sample.invoice_form "c1" "1e999" "pending".

Definition form_blank_amount : FormData :=
  Sample.invoice_form "c1" "   " "paid".

Definition form_no_amount : FormData :=
  [ ("customerId", EntryString "c1"); ("status", EntryString "paid") ].

Definition form_file_amount : FormData :=
  [ ("customerId", EntryString "c1");
    ("amount", EntryFile {| file_name := "amount.txt" |});
    ("status", EntryString "paid") ].

(** A data layer with one invoice, "inv-1", whose customers fetch
    rejects or resolves as told. *)
Definition data_layer (customers : JsError + list string)
    : EditPage.DataLayer nat string :=
  {| EditPage.fetchInvoiceById := fun id =>
       inr (if String.eqb id "inv-1" then Some 500 else None);
     EditPage.fetchCustomers := customers;
     EditPage.invoice_rejects_first := true |}.

End MoreSamples.

(** * Properties *)

Import Form Zod Runtime Actions Observe.

(** ** Field errors *)

Section FieldErrors.

Implicit Types (issues : list ZodIssue) (k : string).
Implicit Types (m : gmap string (list string)).

Lemma messages_at_app k issues1 issues2 :
  messages_at k (issues1 ++ issues2)%list
  = (messages_at k issues1 ++ messages_at k issues2)%list.
Proof.
  induction issues1 as [|i rest IH]; simpl; [reflexivity|].
  destruct (path i) as [|k' ?]; [exact IH|].
  destruct (String.eqb k' k); simpl; congruence.
Qed.

Lemma messages_at_issues_at {A} k k' (r : ParseReturn A) :
  messages_at k (issues_at k' r)
  = if String.eqb k' k then map Zod.message (issues_of r) else [].
Proof.
  destruct r as [issues|a]; simpl; [|destruct (String.eqb k' k); reflexivity].
  induction issues as [|i rest IH]; simpl.
  - destruct (String.eqb k' k); reflexivity.
  - rewrite IH. destruct (String.eqb k' k); reflexivity.
Qed.

Lemma fold_push_field_error_lookup issues : forall m k,
  fold_left push_field_error issues m !! k
  = match messages_at k issues with
    | [] => m !! k
    | l => Some (default [] (m !! k) ++ l)%list
    end.
Proof.
  induction issues as [|i rest IH]; intros m k; simpl; [reflexivity|].
  rewrite IH. unfold push_field_error.
  destruct (path i) as [|k' ?]; [reflexivity|].
  destruct (String.eqb_spec k' k) as [->|Hne].
  - rewrite lookup_insert_eq. simpl.
    destruct (messages_at k rest); simpl; [reflexivity|].
    now rewrite <- app_assoc.
  - rewrite lookup_insert_ne by exact Hne. reflexivity.
Qed.

Lemma fieldErrors_lookup issues k :
  fieldErrors issues !! k = field_of_messages (messages_at k issues).
Proof.
  unfold fieldErrors. rewrite fold_push_field_error_lookup, lookup_empty.
  destruct (messages_at k issues); reflexivity.
Qed.

End FieldErrors.

(** ** Validation *)

Section Validation.

Variables c a s : option FormDataEntryValue.

(** Validation either yields the three parsed values or all the issues
    of the three fields. *)
Lemma safeParse_cases :
  (exists c' a' s',
      InvoiceFormSchema_customerId c = inr c'
      /\ InvoiceFormSchema_amount a = inr a'
      /\ InvoiceFormSchema_status s = inr s'
      /\ InvoiceFormSchema_omit_safeParse c a s
         = inr {| customerId := c'; amount := a'; status := s' |})
  \/ (InvoiceFormSchema_omit_safeParse c a s = inl (all_issues c a s)
      /\ (issues_of (InvoiceFormSchema_customerId c) <> []
          \/ issues_of (InvoiceFormSchema_amount a) <> []
          \/ issues_of (InvoiceFormSchema_status s) <> [])).
Proof.
  unfold InvoiceFormSchema_omit_safeParse, all_issues.
  destruct (InvoiceFormSchema_customerId c) as [ic|c'] eqn:Hc.
  2: destruct (InvoiceFormSchema_amount a) as [ia|a'] eqn:Ha.
  3: destruct (InvoiceFormSchema_status s) as [js|s'] eqn:Hs.
  4: { left. now exists c', a', s'. }
  all: right; split; [reflexivity|].
  - left. unfold InvoiceFormSchema_customerId, ZodString_parse in Hc.
    destruct c as [[?|?]|]; inversion Hc; discriminate.
  - right; left.
    unfold InvoiceFormSchema_amount, ZodNumber_coerce_gt_parse in Ha.
    destruct (JsNumber.is_nan _); [inversion Ha; discriminate|].
    destruct (JsNumber.leb _ _); inversion Ha; discriminate.
  - right; right. unfold InvoiceFormSchema_status, ZodEnum_parse in Hs.
    destruct s as [[?|?]|]; [|inversion Hs; discriminate..].
    destruct (not_in_values _ _); inversion Hs; discriminate.
Qed.

Lemma all_issues_customerId :
  fieldErrors (all_issues c a s) !! "customerId"
  = field_of_messages
      (map Zod.message (issues_of (InvoiceFormSchema_customerId c))).
Proof.
  rewrite fieldErrors_lookup. unfold all_issues.
  rewrite !messages_at_app, !messages_at_issues_at. simpl.
  now rewrite app_nil_r.
Qed.

Lemma all_issues_amount :
  fieldErrors (all_issues c a s) !! "amount"
  = field_of_messages
      (map Zod.message (issues_of (InvoiceFormSchema_amount a))).
Proof.
  rewrite fieldErrors_lookup. unfold all_issues.
  rewrite !messages_at_app, !messages_at_issues_at. simpl.
  now rewrite app_nil_r.
Qed.

Lemma all_issues_status :
  fieldErrors (all_issues c a s) !! "status"
  = field_of_messages
      (map Zod.message (issues_of (InvoiceFormSchema_status s))).
Proof.
  rewrite fieldErrors_lookup. unfold all_issues.
  rewrite !messages_at_app, !messages_at_issues_at. reflexivity.
Qed.

Lemma all_issues_other k :
  k <> "customerId" -> k <> "amount" -> k <> "status" ->
  fieldErrors (all_issues c a s) !! k = None.
Proof.
  intros H1 H2 H3. rewrite fieldErrors_lookup. unfold all_issues.
  rewrite !messages_at_app, !messages_at_issues_at.
  destruct (String.eqb_spec "customerId" k); [congruence|].
  destruct (String.eqb_spec "amount" k); [congruence|].
  destruct (String.eqb_spec "status" k); [congruence|].
  reflexivity.
Qed.

End Validation.

(** ** What the actions do, case by case *)

(** Runs the monadic operations of an action as far as they go. *)
Ltac run_action :=
  repeat (progress
    (unfold bind, try_catch, today, sql, console_log, revalidatePath,
       redirect, signIn, emit, ret, throw;
     cbn -[JsNumber.of_Z JsNumber.mul JsNumber.Math_round String.eqb])).

Section Runs.

Variables (env : Env) (w : World).

Lemma createInvoice_invalid st fd issues :
  CreateInvoice_safeParse (get fd "customerId") (get fd "amount")
    (get fd "status") = inl issues ->
  createInvoice st fd env w
  = (Normal {| message := Some "Missing Fields. Failed to Create Invoice.";
               errors := Some (fieldErrors issues) |}, w).
Proof. intros H. unfold createInvoice. now rewrite H. Qed.

Lemma updateInvoice_invalid id st fd issues :
  UpdateInvoice_safeParse (get fd "customerId") (get fd "amount")
    (get fd "status") = inl issues ->
  updateInvoice id st fd env w
  = (Normal {| message := Some "Missing fields. Failed to update invoice";
               errors := Some (fieldErrors issues) |}, w).
Proof. intros H. unfold updateInvoice. now rewrite H. Qed.

Lemma createInvoice_valid st fd data :
  CreateInvoice_safeParse (get fd "customerId") (get fd "amount")
    (get fd "status") = inr data ->
  createInvoice st fd env w
  = match sql_failure env (insert_of env data) (invoices w) with
    | None =>
        (Throw (RedirectError invoicesPath), after_success env w (insert_of env data))
    | Some e =>
        (Normal {| message :=
                     Some "Database Error: Failed to Create Invoice.";
                   errors := None |},
         after_failure w (insert_of env data) e)
    end.
Proof.
  intros H. unfold createInvoice. rewrite H.
  unfold after_success, after_failure. run_action.
  fold (insert_of env data).
  destruct (sql_failure env _ (invoices w)); run_action;
    now rewrite <- !List.app_assoc.
Qed.

Lemma updateInvoice_valid id st fd data :
  UpdateInvoice_safeParse (get fd "customerId") (get fd "amount")
    (get fd "status") = inr data ->
  updateInvoice id st fd env w
  = match sql_failure env (update_of id data) (invoices w) with
    | None =>
        (Throw (RedirectError invoicesPath),
         after_success env w (update_of id data))
    | Some e =>
        (Normal {| message :=
                     Some "Database Error: Failed to Update Invoice.";
                   errors := None |},
         after_failure w (update_of id data) e)
    end.
Proof.
  intros H. unfold updateInvoice. rewrite H.
  unfold after_success, after_failure. run_action.
  fold (update_of id data).
  destruct (sql_failure env _ (invoices w)); run_action;
    now rewrite <- !List.app_assoc.
Qed.

Lemma deleteInvoice_run id :
  deleteInvoice id env w
  = match sql_failure env (Db.DELETE id) (invoices w) with
    | None =>
        (Normal {| message := Some "Deleted Invoice."; errors := None |},
         {| invoices :=
              Db.execute (new_id env (invoices w)) (Db.DELETE id)
                (invoices w);
            events := (events w ++ [ Sql (Db.DELETE id) None;
                                     RevalidatePath "/dashboard/invoices"
                                   ])%list |})
    | Some e =>
        (Normal {| message :=
                     Some " Database Error: Failed to Delete Invoice";
                   errors := None |},
         after_failure w (Db.DELETE id) e)
    end.
Proof.
  unfold deleteInvoice, after_failure. run_action.
  destruct (sql_failure env _ (invoices w)); run_action;
    now rewrite <- !List.app_assoc.
Qed.

Lemma authenticate_run st fd :
  authenticate st fd env w
  = (match signIn_failure env "credentials" fd with
     | None => Normal None
     | Some (AuthError type) =>
         Normal (Some (if String.eqb type "CredentialsSignin"
                       then "Invalid credentials."
                       else "Something went wrong."))
     | Some e => Throw e
     end,
     {| invoices := invoices w;
        events := (events w ++ [ ConsoleLog (LogFormData fd);
                                 SignIn "credentials" fd ])%list |}).
Proof.
  unfold authenticate. run_action. rewrite <- !List.app_assoc.
  destruct (signIn_failure env "credentials" fd) as [[t| |]|];
    run_action; try reflexivity.
  destruct (String.eqb t "CredentialsSignin"); reflexivity.
Qed.

End Runs.

Lemma emitted_app {A} (act : Action A) env w tr :
  events (snd (act env w)) = (events w ++ tr)%list -> emitted act env w = tr.
Proof. intros H. unfold emitted. rewrite H. apply drop_app_length. Qed.

(** ** The messages of each field *)

Lemma customerId_messages c :
  map Zod.message (issues_of (InvoiceFormSchema_customerId c))
  = match c with
    | Some (EntryString _) => []
    | _ => ["Please select a customer."]
    end.
Proof. destruct c as [[?|?]|]; reflexivity. Qed.

Lemma amount_messages a :
  map Zod.message (issues_of (InvoiceFormSchema_amount a))
  = if JsNumber.is_nan (Number a) then ["Expected number, received nan"]
    else if JsNumber.leb (Number a) (S754_zero false)
         then ["Please enter an amount greater than $0."]
         else [].
Proof.
  unfold InvoiceFormSchema_amount, ZodNumber_coerce_gt_parse.
  destruct (JsNumber.is_nan (Number a)); [reflexivity|].
  destruct (JsNumber.leb (Number a) (S754_zero false)); reflexivity.
Qed.

Lemma status_messages s :
  map Zod.message (issues_of (InvoiceFormSchema_status s))
  = match s with
    | Some (EntryString v) =>
        if not_in_values ["pending"; "paid"] v
        then ["Invalid enum value. Expected 'pending' | 'paid', received '"
              +:+ v +:+ "'"]
        else []
    | _ => ["Please select an invoice status"]
    end.
Proof.
  destruct s as [[v|?]|]; try reflexivity.
  unfold InvoiceFormSchema_status, ZodEnum_parse.
  destruct (not_in_values _ v); reflexivity.
Qed.

Lemma not_in_values_status v :
  not_in_values ["pending"; "paid"] v = false
  <-> v = "pending" \/ v = "paid".
Proof.
  unfold not_in_values. simpl.
  destruct (String.eqb_spec v "pending"), (String.eqb_spec v "paid");
    simpl; intuition congruence.
Qed.

(** A form with a message under some field is rejected by both actions,
    with the same field errors, before anything else happens. *)
Lemma rejected_form id st fd env w :
  let c := get fd "customerId" in
  let a := get fd "amount" in
  let s := get fd "status" in
  map Zod.message (issues_of (InvoiceFormSchema_customerId c)) <> []
  \/ map Zod.message (issues_of (InvoiceFormSchema_amount a)) <> []
  \/ map Zod.message (issues_of (InvoiceFormSchema_status s)) <> [] ->
  createInvoice st fd env w
  = (Normal {| message := Some "Missing Fields. Failed to Create Invoice.";
               errors := Some (fieldErrors (all_issues c a s)) |}, w)
  /\ updateInvoice id st fd env w
     = (Normal {| message := Some "Missing fields. Failed to update invoice";
                  errors := Some (fieldErrors (all_issues c a s)) |}, w).
Proof.
  intros c a s H.
  destruct (safeParse_cases c a s) as [(c' & a' & s' & Hc & Ha & Hs & _)|[E _]].
  - rewrite Hc, Ha, Hs in H. simpl in H. tauto.
  - split; [now apply createInvoice_invalid|now apply updateInvoice_invalid].
Qed.

(** An action that leaves the world as it found it sent no statement. *)
Lemma unchanged_world_sends_nothing {A} (act : Action A) env w :
  snd (act env w) = w -> statements_sent act env w = [].
Proof.
  intros H. unfold statements_sent, emitted. rewrite H.
  now rewrite drop_all.
Qed.

(** * The claims *)

(** C4. For every amount input that is not numeric ([Number] gives NaN) or
    is at most 0, [createInvoice] and [updateInvoice] return a result whose
    [errors.amount] is a non-empty list, and they send no statement to the
    database: the world, its table included, is the one they started in. *)
Theorem nonpositive_amount_rejected_without_write
    (id : string) (st : ActionState) (fd : FormData) (env : Env) (w : World) :
  JsNumber.is_nan (Number (get fd "amount")) = true
  \/ JsNumber.leb (Number (get fd "amount")) (S754_zero false) = true ->
  exists errs l,
    createInvoice st fd env w
    = (Normal {| message := Some "Missing Fields. Failed to Create Invoice.";
                 errors := Some errs |}, w)
    /\ updateInvoice id st fd env w
       = (Normal {| message :=
                      Some "Missing fields. Failed to update invoice";
                    errors := Some errs |}, w)
    /\ errs !! "amount" = Some l /\ l <> []
    /\ statements_sent (createInvoice st fd) env w = []
    /\ statements_sent (updateInvoice id st fd) env w = [].
Proof.
  intros H.
  assert (Hm : exists msg,
             map Zod.message
               (issues_of (InvoiceFormSchema_amount (get fd "amount")))
             = [msg]).
  { rewrite amount_messages.
    destruct (JsNumber.is_nan _); [eauto|].
    destruct H as [H|H]; [discriminate|]. rewrite H. eauto. }
  destruct Hm as [msg Hm].
  destruct (rejected_form id st fd env w) as [Hc Hu].
  { right; left. rewrite Hm. discriminate. }
  exists (fieldErrors (all_issues (get fd "customerId") (get fd "amount")
                         (get fd "status"))), [msg].
  repeat split; try assumption.
  - now rewrite all_issues_amount, Hm.
  - discriminate.
  - apply unchanged_world_sends_nothing. now rewrite Hc.
  - apply unchanged_world_sends_nothing. now rewrite Hu.
Qed.

Lemma nonpositive_amount_rejected_witness :
  (JsNumber.is_nan (Number (get Sample.form_negative_amount "amount")) = true
   \/ JsNumber.leb (Number (get Sample.form_negative_amount "amount"))
        (S754_zero false) = true)
  /\ exists errs l,
       createInvoice Sample.no_state Sample.form_negative_amount
         Sample.env_ok Sample.one_invoice
       = (Normal {| message :=
                      Some "Missing Fields. Failed to Create Invoice.";
                    errors := Some errs |}, Sample.one_invoice)
       /\ updateInvoice "inv-1" Sample.no_state Sample.form_negative_amount
            Sample.env_ok Sample.one_invoice
          = (Normal {| message :=
                         Some "Missing fields. Failed to update invoice";
                       errors := Some errs |}, Sample.one_invoice)
       /\ errs !! "amount" = Some l /\ l <> []
       /\ statements_sent
            (createInvoice Sample.no_state Sample.form_negative_amount)
            Sample.env_ok Sample.one_invoice = []
       /\ statements_sent
            (updateInvoice "inv-1" Sample.no_state
               Sample.form_negative_amount)
            Sample.env_ok Sample.one_invoice = [].
Proof.
  assert (H : JsNumber.is_nan
                (Number (get Sample.form_negative_amount "amount")) = true
              \/ JsNumber.leb
                   (Number (get Sample.form_negative_amount "amount"))
                   (S754_zero false) = true)
    by (right; vm_compute; reflexivity).
  split; [exact H|].
  exact (nonpositive_amount_rejected_without_write "inv-1" Sample.no_state
           Sample.form_negative_amount Sample.env_ok Sample.one_invoice H).
Defined.

(** C10. For every form whose amount field is present and is the empty
    string, the schema coerces it to the number 0, so validation fails in
    both actions with [errors.amount] exactly
    ["Please enter an amount greater than $0."] and not with a type
    error. *)
Theorem empty_amount_coerced_to_zero
    (id : string) (st : ActionState) (fd : FormData) (env : Env) (w : World) :
  get fd "amount" = Some (EntryString "") ->
  Number (get fd "amount") = S754_zero false
  /\ exists errs,
       createInvoice st fd env w
       = (Normal {| message :=
                      Some "Missing Fields. Failed to Create Invoice.";
                    errors := Some errs |}, w)
       /\ updateInvoice id st fd env w
          = (Normal {| message :=
                         Some "Missing fields. Failed to update invoice";
                       errors := Some errs |}, w)
       /\ errs !! "amount"
          = Some ["Please enter an amount greater than $0."].
Proof.
  intros H.
  assert (Hm : map Zod.message
                 (issues_of (InvoiceFormSchema_amount (get fd "amount")))
               = ["Please enter an amount greater than $0."]).
  { rewrite amount_messages, H. reflexivity. }
  split; [now rewrite H|].
  destruct (rejected_form id st fd env w) as [Hc Hu].
  { right; left. rewrite Hm. discriminate. }
  eexists. split; [exact Hc|]. split; [exact Hu|].
  now rewrite all_issues_amount, Hm.
Qed.

Lemma empty_amount_coerced_to_zero_witness :
  get Sample.form_empty_amount "amount" = Some (EntryString "")
  /\ Number (get Sample.form_empty_amount "amount") = S754_zero false
  /\ exists errs,
       createInvoice Sample.no_state Sample.form_empty_amount Sample.env_ok
         Sample.one_invoice
       = (Normal {| message :=
                      Some "Missing Fields. Failed to Create Invoice.";
                    errors := Some errs |}, Sample.one_invoice)
       /\ updateInvoice "inv-1" Sample.no_state Sample.form_empty_amount
            Sample.env_ok Sample.one_invoice
          = (Normal {| message :=
                         Some "Missing fields. Failed to update invoice";
                       errors := Some errs |}, Sample.one_invoice)
       /\ errs !! "amount"
          = Some ["Please enter an amount greater than $0."].
Proof.
  split; [reflexivity|].
  apply (empty_amount_coerced_to_zero "inv-1" Sample.no_state
           Sample.form_empty_amount Sample.env_ok Sample.one_invoice).
  reflexivity.
Defined.

(** When validation passes, neither action returns field errors. *)
Lemma accepted_form_has_no_errors id st fd env w data r :
  InvoiceFormSchema_omit_safeParse (get fd "customerId") (get fd "amount")
    (get fd "status") = inr data ->
  fst (createInvoice st fd env w) = Normal r
  \/ fst (updateInvoice id st fd env w) = Normal r ->
  errors r = None.
Proof.
  intros Hv [H|H].
  - rewrite (createInvoice_valid env w st fd data Hv) in H.
    destruct (sql_failure env _ _); simpl in H; [|discriminate].
    now inversion H.
  - rewrite (updateInvoice_valid env w id st fd data Hv) in H.
    destruct (sql_failure env _ _); simpl in H; [|discriminate].
    now inversion H.
Qed.

(** C2. A form whose customerId is the empty string, with a valid amount
    and status, is not rejected: validation passes with the customer "",
    [createInvoice] sends an INSERT and [updateInvoice] an UPDATE whose
    customer is "", both go on to the redirect, and no error object, so no
    "Please select a customer.", is returned. *)
Lemma empty_customerId_passes_validation :
  get Sample.form_empty_customer "customerId" = Some (EntryString "")
  /\ CreateInvoice_safeParse (get Sample.form_empty_customer "customerId")
       (get Sample.form_empty_customer "amount")
       (get Sample.form_empty_customer "status")
     = inr {| customerId := ""; amount := JsNumber.of_Z 10;
              status := "paid" |}
  /\ statements_sent
       (createInvoice Sample.no_state Sample.form_empty_customer)
       Sample.env_ok Sample.one_invoice
     = [ Db.INSERT "" (JsNumber.of_Z 1000) "paid" "2024-05-06" ]
  /\ statements_sent
       (updateInvoice "inv-1" Sample.no_state Sample.form_empty_customer)
       Sample.env_ok Sample.one_invoice
     = [ Db.UPDATE "" (JsNumber.of_Z 1000) "paid" "inv-1" ]
  /\ fst (createInvoice Sample.no_state Sample.form_empty_customer
            Sample.env_ok Sample.one_invoice)
     = Throw (RedirectError "/dashboard/invoices")
  /\ fst (updateInvoice "inv-1" Sample.no_state Sample.form_empty_customer
            Sample.env_ok Sample.one_invoice)
     = Throw (RedirectError "/dashboard/invoices")
  /\ ~ (exists msg errs,
          fst (createInvoice Sample.no_state Sample.form_empty_customer
                 Sample.env_ok Sample.one_invoice)
          = Normal {| message := msg; errors := Some errs |}
          /\ errs !! "customerId" = Some ["Please select a customer."]).
Proof.
  repeat split; try (vm_compute; reflexivity).
  intros (msg & errs & H & _). vm_compute in H. discriminate.
Qed.

(** C7, as the code has it. For every status value outside
    {"pending", "paid"}, validation fails in both actions and
    [errors.status] holds one message: "Please select an invoice status"
    when the status field is missing or is not a string, and the schema
    library's own message, which quotes the value received, when it is a
    string outside the set. *)
Theorem status_outside_enum_rejected
    (id : string) (st : ActionState) (fd : FormData) (env : Env) (w : World) :
  get fd "status" <> Some (EntryString "pending") ->
  get fd "status" <> Some (EntryString "paid") ->
  exists errs,
    createInvoice st fd env w
    = (Normal {| message := Some "Missing Fields. Failed to Create Invoice.";
                 errors := Some errs |}, w)
    /\ updateInvoice id st fd env w
       = (Normal {| message :=
                      Some "Missing fields. Failed to update invoice";
                    errors := Some errs |}, w)
    /\ errs !! "status"
       = Some [ match get fd "status" with
                | Some (EntryString v) =>
                    "Invalid enum value. Expected 'pending' | 'paid', received '"
                    +:+ v +:+ "'"
                | _ => "Please select an invoice status"
                end ].
Proof.
  intros H1 H2.
  assert (Hm : map Zod.message
                 (issues_of (InvoiceFormSchema_status (get fd "status")))
               = [ match get fd "status" with
                   | Some (EntryString v) =>
                       "Invalid enum value. Expected 'pending' | 'paid', received '"
                       +:+ v +:+ "'"
                   | _ => "Please select an invoice status"
                   end ]).
  { rewrite status_messages.
    destruct (get fd "status") as [[v|f]|]; try reflexivity.
    destruct (not_in_values ["pending"; "paid"] v) eqn:E; [reflexivity|].
    apply not_in_values_status in E. destruct E; congruence. }
  destruct (rejected_form id st fd env w) as [Hc Hu].
  { right; right. rewrite Hm. discriminate. }
  eexists. split; [exact Hc|]. split; [exact Hu|].
  now rewrite all_issues_status, Hm.
Qed.

Lemma status_outside_enum_rejected_witness :
  get Sample.form_draft "status" <> Some (EntryString "pending")
  /\ get Sample.form_draft "status" <> Some (EntryString "paid")
  /\ exists errs,
       createInvoice Sample.no_state Sample.form_draft Sample.env_ok
         Sample.one_invoice
       = (Normal {| message :=
                      Some "Missing Fields. Failed to Create Invoice.";
                    errors := Some errs |}, Sample.one_invoice)
       /\ updateInvoice "inv-1" Sample.no_state Sample.form_draft
            Sample.env_ok Sample.one_invoice
          = (Normal {| message :=
                         Some "Missing fields. Failed to update invoice";
                       errors := Some errs |}, Sample.one_invoice)
       /\ errs !! "status"
          = Some ["Invalid enum value. Expected 'pending' | 'paid', received 'draft'"].
Proof.
  assert (H1 : get Sample.form_draft "status" <> Some (EntryString "pending"))
    by discriminate.
  assert (H2 : get Sample.form_draft "status" <> Some (EntryString "paid"))
    by discriminate.
  split; [exact H1|]. split; [exact H2|].
  exact (status_outside_enum_rejected "inv-1" Sample.no_state
           Sample.form_draft Sample.env_ok Sample.one_invoice H1 H2).
Defined.

(** C7 as stated fails: for the status "draft", a string outside the set,
    the message under [errors.status] is the schema library's own and not
    "Please select an invoice status". *)
Lemma draft_status_gets_default_message :
  get Sample.form_draft "status" = Some (EntryString "draft")
  /\ fst (createInvoice Sample.no_state Sample.form_draft Sample.env_ok
            Sample.one_invoice)
     = Normal
         {| message := Some "Missing Fields. Failed to Create Invoice.";
            errors :=
              Some {[ "status" :=
                        ["Invalid enum value. Expected 'pending' | 'paid', received 'draft'"]
                   ]} |}
  /\ ~ (exists msg errs,
          fst (createInvoice Sample.no_state Sample.form_draft Sample.env_ok
                 Sample.one_invoice)
          = Normal {| message := msg; errors := Some errs |}
          /\ errs !! "status" = Some ["Please select an invoice status"]).
Proof.
  split; [reflexivity|]. split; [vm_compute; reflexivity|].
  intros (msg & errs & H & Hs).
  assert (E : fst (createInvoice Sample.no_state Sample.form_draft
                     Sample.env_ok Sample.one_invoice)
              = Normal
                  {| message :=
                       Some "Missing Fields. Failed to Create Invoice.";
                     errors :=
                       Some {[ "status" :=
                                 ["Invalid enum value. Expected 'pending' | 'paid', received 'draft'"]
                            ]} |}) by (vm_compute; reflexivity).
  rewrite E in H. inversion H; subst errs.
  rewrite lookup_singleton_eq in Hs. discriminate.
Qed.

(** ** Statements sent by the actions *)

Lemma createInvoice_sends st fd env w data :
  CreateInvoice_safeParse (get fd "customerId") (get fd "amount")
    (get fd "status") = inr data ->
  statements_sent (createInvoice st fd) env w = [insert_of env data].
Proof.
  intros Hv. unfold statements_sent.
  rewrite (emitted_app (createInvoice st fd) env w
             (match sql_failure env (insert_of env data) (invoices w) with
              | None => [ Sql (insert_of env data) None;
                          RevalidatePath invoicesPath; Redirect invoicesPath ]
              | Some e => [ Sql (insert_of env data) (Some e);
                            ConsoleLog (LogError e) ]
              end)).
  - destruct (sql_failure env _ _); reflexivity.
  - rewrite (createInvoice_valid env w st fd data Hv).
    destruct (sql_failure env _ _); reflexivity.
Qed.

Lemma updateInvoice_sends id st fd env w data :
  UpdateInvoice_safeParse (get fd "customerId") (get fd "amount")
    (get fd "status") = inr data ->
  statements_sent (updateInvoice id st fd) env w = [update_of id data].
Proof.
  intros Hv. unfold statements_sent.
  rewrite (emitted_app (updateInvoice id st fd) env w
             (match sql_failure env (update_of id data) (invoices w) with
              | None => [ Sql (update_of id data) None;
                          RevalidatePath invoicesPath; Redirect invoicesPath ]
              | Some e => [ Sql (update_of id data) (Some e);
                            ConsoleLog (LogError e) ]
              end)).
  - destruct (sql_failure env _ _); reflexivity.
  - rewrite (updateInvoice_valid env w id st fd data Hv).
    destruct (sql_failure env _ _); reflexivity.
Qed.

(** C1. [updateInvoice] sends [Math.round(amount * 100)], so 12.34 goes out
    as 1234 and 12.345 as 1235; [createInvoice] sends [amount * 100] as it
    is: 12.34 goes out as 1234, but 12.345 goes out as 1234.5, which is
    not 1235. *)
Theorem createInvoice_amount_not_rounded
    (id : string) (st : ActionState) (env : Env) (w : World) :
  statements_sent (updateInvoice id st Sample.form_12_34) env w
  = [ Db.UPDATE "c1" (JsNumber.of_Z 1234) "paid" id ]
  /\ statements_sent (updateInvoice id st Sample.form_12_345) env w
     = [ Db.UPDATE "c1" (JsNumber.of_Z 1235) "paid" id ]
  /\ statements_sent (createInvoice st Sample.form_12_34) env w
     = [ Db.INSERT "c1" (JsNumber.of_Z 1234) "paid"
           (split_T_0 (now_toISOString env)) ]
  /\ statements_sent (createInvoice st Sample.form_12_345) env w
     = [ Db.INSERT "c1" (JsNumber.StringToNumber "1234.5") "paid"
           (split_T_0 (now_toISOString env)) ]
  /\ JsNumber.StringToNumber "1234.5" <> JsNumber.of_Z 1235
  /\ JsNumber.Math_round (JsNumber.StringToNumber "1234.5")
     = JsNumber.of_Z 1235.
Proof.
  assert (H34 : InvoiceFormSchema_omit_safeParse
                  (get Sample.form_12_34 "customerId")
                  (get Sample.form_12_34 "amount")
                  (get Sample.form_12_34 "status")
                = inr {| customerId := "c1";
                         amount := JsNumber.StringToNumber "12.34";
                         status := "paid" |}) by (vm_compute; reflexivity).
  assert (H345 : InvoiceFormSchema_omit_safeParse
                   (get Sample.form_12_345 "customerId")
                   (get Sample.form_12_345 "amount")
                   (get Sample.form_12_345 "status")
                 = inr {| customerId := "c1";
                          amount := JsNumber.StringToNumber "12.345";
                          status := "paid" |}) by (vm_compute; reflexivity).
  split; [|split; [|split; [|split; [|split]]]].
  - rewrite (updateInvoice_sends id st _ env w _ H34).
    unfold update_of. vm_compute. reflexivity.
  - rewrite (updateInvoice_sends id st _ env w _ H345).
    unfold update_of. vm_compute. reflexivity.
  - rewrite (createInvoice_sends st _ env w _ H34).
    unfold insert_of. vm_compute. reflexivity.
  - rewrite (createInvoice_sends st _ env w _ H345).
    unfold insert_of. vm_compute. reflexivity.
  - vm_compute. discriminate.
  - vm_compute. reflexivity.
Qed.

(** C3. [deleteInvoice] never throws: whatever the id and the database, it
    returns a message. When the statement succeeds the message is
    "Deleted Invoice."; when it fails the message is
    " Database Error: Failed to Delete Invoice", which starts with a
    space and so is not "Database Error: Failed to Delete Invoice". *)
Theorem deleteInvoice_failure_message_has_leading_space
    (id : string) (env : Env) (w : World) :
  fst (deleteInvoice id env w)
  = Normal
      {| message :=
           Some (match sql_failure env (Db.DELETE id) (invoices w) with
                 | None => "Deleted Invoice."
                 | Some _ => " Database Error: Failed to Delete Invoice"
                 end);
         errors := None |}
  /\ fst (deleteInvoice "no-such-id" Sample.env_down Sample.one_invoice)
     <> Normal
          {| message := Some "Database Error: Failed to Delete Invoice";
             errors := None |}.
Proof.
  split.
  - rewrite deleteInvoice_run.
    destruct (sql_failure env _ _); reflexivity.
  - vm_compute. discriminate.
Qed.

(** C5. Take a form that passes validation. If the statement succeeds, the
    action adds to the trace exactly the statement, then the invalidation
    of the invoices listing, then the redirect to it, and it ends by the
    redirect; this holds for [createInvoice] and for [updateInvoice]. If
    the statement fails, the trace the action adds has no redirect and the
    action returns normally. *)
Theorem redirect_follows_invalidation
    (id : string) (st : ActionState) (fd : FormData) (env : Env) (w : World)
    (data : InvoiceForm) :
  InvoiceFormSchema_omit_safeParse (get fd "customerId") (get fd "amount")
    (get fd "status") = inr data ->
  (sql_failure env (insert_of env data) (invoices w) = None ->
   emitted (createInvoice st fd) env w
   = [ Sql (insert_of env data) None; RevalidatePath "/dashboard/invoices";
       Redirect "/dashboard/invoices" ]
   /\ fst (createInvoice st fd env w)
      = Throw (RedirectError "/dashboard/invoices"))
  /\ (sql_failure env (update_of id data) (invoices w) = None ->
      emitted (updateInvoice id st fd) env w
      = [ Sql (update_of id data) None; RevalidatePath "/dashboard/invoices";
          Redirect "/dashboard/invoices" ]
      /\ fst (updateInvoice id st fd env w)
         = Throw (RedirectError "/dashboard/invoices"))
  /\ (forall e, sql_failure env (insert_of env data) (invoices w) = Some e ->
      (forall url, Redirect url ∉ emitted (createInvoice st fd) env w)
      /\ exists r, fst (createInvoice st fd env w) = Normal r)
  /\ (forall e, sql_failure env (update_of id data) (invoices w) = Some e ->
      (forall url, Redirect url ∉ emitted (updateInvoice id st fd) env w)
      /\ exists r, fst (updateInvoice id st fd env w) = Normal r).
Proof.
  intros Hv.
  pose proof (createInvoice_valid env w st fd data Hv) as Hc.
  pose proof (updateInvoice_valid env w id st fd data Hv) as Hu.
  split; [|split; [|split]].
  - intros Hok. rewrite Hok in Hc. split; [|now rewrite Hc].
    apply emitted_app. now rewrite Hc.
  - intros Hok. rewrite Hok in Hu. split; [|now rewrite Hu].
    apply emitted_app. now rewrite Hu.
  - intros e He. rewrite He in Hc. split; [|rewrite Hc; eauto].
    intros url Hin.
    rewrite (emitted_app (createInvoice st fd) env w
               [ Sql (insert_of env data) (Some e); ConsoleLog (LogError e) ])
      in Hin by now rewrite Hc.
    apply list_elem_of_In in Hin. simpl in Hin.
    destruct Hin as [H|[H|[]]]; discriminate.
  - intros e He. rewrite He in Hu. split; [|rewrite Hu; eauto].
    intros url Hin.
    rewrite (emitted_app (updateInvoice id st fd) env w
               [ Sql (update_of id data) (Some e); ConsoleLog (LogError e) ])
      in Hin by now rewrite Hu.
    apply list_elem_of_In in Hin. simpl in Hin.
    destruct Hin as [H|[H|[]]]; discriminate.
Qed.

Lemma redirect_follows_invalidation_witness :
  InvoiceFormSchema_omit_safeParse (get Sample.form_12_34 "customerId")
    (get Sample.form_12_34 "amount") (get Sample.form_12_34 "status")
  = inr Sample.data_12_34
  /\ sql_failure Sample.env_ok (insert_of Sample.env_ok Sample.data_12_34)
       (invoices Sample.one_invoice) = None
  /\ emitted (createInvoice Sample.no_state Sample.form_12_34) Sample.env_ok
       Sample.one_invoice
     = [ Sql (insert_of Sample.env_ok Sample.data_12_34) None;
         RevalidatePath "/dashboard/invoices";
         Redirect "/dashboard/invoices" ]
  /\ sql_failure Sample.env_down (update_of "inv-1" Sample.data_12_34)
       (invoices Sample.one_invoice)
     = Some (OtherError "connection refused")
  /\ forall url,
       Redirect url
       ∉ emitted (updateInvoice "inv-1" Sample.no_state Sample.form_12_34)
           Sample.env_down Sample.one_invoice.
Proof.
  assert (Hv : InvoiceFormSchema_omit_safeParse
                 (get Sample.form_12_34 "customerId")
                 (get Sample.form_12_34 "amount")
                 (get Sample.form_12_34 "status")
               = inr Sample.data_12_34) by (vm_compute; reflexivity).
  split; [exact Hv|]. split; [reflexivity|]. split; [|split; [reflexivity|]].
  - apply (proj1 (redirect_follows_invalidation "inv-1" Sample.no_state
                    Sample.form_12_34 Sample.env_ok Sample.one_invoice
                    Sample.data_12_34 Hv)).
    reflexivity.
  - apply (proj2 (proj2 (proj2
             (redirect_follows_invalidation "inv-1" Sample.no_state
                Sample.form_12_34 Sample.env_down Sample.one_invoice
                Sample.data_12_34 Hv)))
             (OtherError "connection refused")).
    reflexivity.
Defined.


(** C6. When [signIn] throws an [AuthError] of type "CredentialsSignin",
    [authenticate] returns "Invalid credentials."; when it throws an
    [AuthError] of any other type, [authenticate] returns
    "Something went wrong."; when it throws anything that is not an
    [AuthError], [authenticate] throws the same error. *)
Theorem authenticate_maps_auth_errors_only
    (st : option string) (fd : FormData) (env : Env) (w : World) :
  (signIn_failure env "credentials" fd
   = Some (AuthError "CredentialsSignin") ->
   fst (authenticate st fd env w) = Normal (Some "Invalid credentials."))
  /\ (forall type,
        type <> "CredentialsSignin" ->
        signIn_failure env "credentials" fd = Some (AuthError type) ->
        fst (authenticate st fd env w)
        = Normal (Some "Something went wrong."))
  /\ (forall e,
        (forall type, e <> AuthError type) ->
        signIn_failure env "credentials" fd = Some e ->
        fst (authenticate st fd env w) = Throw e).
Proof.
  rewrite authenticate_run. simpl. split; [|split].
  - intros ->. reflexivity.
  - intros t Ht ->.
    destruct (String.eqb_spec t "CredentialsSignin"); [contradiction|].
    reflexivity.
  - intros e He ->. destruct e as [t| |]; try reflexivity.
    now destruct (He t).
Qed.

Lemma authenticate_maps_auth_errors_only_witness :
  fst (authenticate None Sample.form_12_34
         (Sample.env_signIn (Some (AuthError "CredentialsSignin")))
         Sample.one_invoice)
  = Normal (Some "Invalid credentials.")
  /\ fst (authenticate None Sample.form_12_34
            (Sample.env_signIn (Some (AuthError "CallbackRouteError")))
            Sample.one_invoice)
     = Normal (Some "Something went wrong.")
  /\ fst (authenticate None Sample.form_12_34
            (Sample.env_signIn (Some (OtherError "fetch failed")))
            Sample.one_invoice)
     = Throw (OtherError "fetch failed").
Proof.
  split; [|split].
  - apply (proj1 (authenticate_maps_auth_errors_only None Sample.form_12_34
                    (Sample.env_signIn (Some (AuthError "CredentialsSignin")))
                    Sample.one_invoice)).
    reflexivity.
  - apply (proj1 (proj2 (authenticate_maps_auth_errors_only None
                           Sample.form_12_34
                           (Sample.env_signIn
                              (Some (AuthError "CallbackRouteError")))
                           Sample.one_invoice))
             "CallbackRouteError").
    + discriminate.
    + reflexivity.
  - apply (proj2 (proj2 (authenticate_maps_auth_errors_only None
                           Sample.form_12_34
                           (Sample.env_signIn
                              (Some (OtherError "fetch failed")))
                           Sample.one_invoice))
             (OtherError "fetch failed")).
    + discriminate.
    + reflexivity.
Defined.


(** The rows of the table after an [UPDATE] that succeeded. *)
Lemma execute_update_lookup fresh c a s id rows i r :
  rows !! i = Some r ->
  Db.execute fresh (Db.UPDATE c a s id) rows !! i
  = Some (if String.eqb (Db.id r) id then Db.set_fields c a s r else r).
Proof.
  simpl. revert i. induction rows as [|r0 rows IH]; intros [|i] H;
    try discriminate.
  - now inversion H.
  - simpl. now apply IH.
Qed.

Lemma execute_update_length fresh c a s id rows :
  length (Db.execute fresh (Db.UPDATE c a s id) rows) = length rows.
Proof. simpl. apply length_map. Qed.

(** C8. After an [updateInvoice id] that succeeded (it went through to the
    redirect), the table has as many rows as before, in the same order;
    every row keeps its id and its date; every row whose id is not [id] is
    the row it was; and a row whose id is [id] differs from the row it was
    only in [customer_id], [amount] and [status], which hold the validated
    customer, the rounded amount in cents and the validated status. *)
Theorem updateInvoice_changes_three_fields_of_matching_row
    (id : string) (st : ActionState) (fd : FormData) (env : Env) (w : World) :
  fst (updateInvoice id st fd env w)
  = Throw (RedirectError "/dashboard/invoices") ->
  let rows := invoices w in
  let rows' := invoices (snd (updateInvoice id st fd env w)) in
  length rows' = length rows
  /\ exists data,
       UpdateInvoice_safeParse (get fd "customerId") (get fd "amount")
         (get fd "status") = inr data
       /\ forall i r,
            rows !! i = Some r ->
            exists r',
              rows' !! i = Some r'
              /\ Db.id r' = Db.id r
              /\ Db.date r' = Db.date r
              /\ (Db.id r <> id -> r' = r)
              /\ (Db.id r = id ->
                  r' = {| Db.id := Db.id r;
                          Db.customer_id := customerId data;
                          Db.amount :=
                            JsNumber.Math_round
                              (JsNumber.mul (amount data) (JsNumber.of_Z 100));
                          Db.status := status data;
                          Db.date := Db.date r |}).
Proof.
  intros Hok rows rows'. subst rows rows'.
  destruct (safeParse_cases (get fd "customerId") (get fd "amount")
              (get fd "status"))
    as [(c' & a' & s' & _ & _ & _ & Hv)|[E _]].
  2: { rewrite (updateInvoice_invalid env w id st fd _ E) in Hok.
       discriminate. }
  rewrite (updateInvoice_valid env w id st fd _ Hv) in Hok |- *.
  destruct (sql_failure env _ (invoices w)); [discriminate|].
  unfold after_success, update_of. cbn [snd invoices].
  split; [apply execute_update_length|].
  eexists. split; [exact Hv|]. intros i r Hr.
  rewrite (execute_update_lookup _ _ _ _ _ _ _ _ Hr).
  eexists. split; [reflexivity|].
  destruct (String.eqb_spec (Db.id r) id) as [Heq|Hne];
    repeat split; try reflexivity; intros; contradiction.
Qed.

Lemma updateInvoice_changes_three_fields_witness :
  fst (updateInvoice "inv-1" Sample.no_state Sample.form_12_34 Sample.env_ok
         Sample.one_invoice)
  = Throw (RedirectError "/dashboard/invoices")
  /\ length (invoices (snd (updateInvoice "inv-1" Sample.no_state
                              Sample.form_12_34 Sample.env_ok
                              Sample.one_invoice)))
     = length (invoices Sample.one_invoice).
Proof.
  assert (H : fst (updateInvoice "inv-1" Sample.no_state Sample.form_12_34
                     Sample.env_ok Sample.one_invoice)
              = Throw (RedirectError "/dashboard/invoices"))
    by (vm_compute; reflexivity).
  split; [exact H|].
  exact (proj1 (updateInvoice_changes_three_fields_of_matching_row "inv-1"
                  Sample.no_state Sample.form_12_34 Sample.env_ok
                  Sample.one_invoice H)).
Defined.





(** * Further properties of the actions *)

(** ** Validation *)

(** The field errors an action returns are those of all the issues of its
    form, and it returns some only when validation failed. *)
Lemma returned_errors id st fd env w r errs :
  fst (createInvoice st fd env w) = Normal r
  \/ fst (updateInvoice id st fd env w) = Normal r ->
  errors r = Some errs ->
  errs = fieldErrors (all_issues (get fd "customerId") (get fd "amount")
                        (get fd "status"))
  /\ (issues_of (InvoiceFormSchema_customerId (get fd "customerId")) <> []
      \/ issues_of (InvoiceFormSchema_amount (get fd "amount")) <> []
      \/ issues_of (InvoiceFormSchema_status (get fd "status")) <> []).
Proof.
  intros Hr He.
  destruct (safeParse_cases (get fd "customerId") (get fd "amount")
              (get fd "status"))
    as [(c' & a' & s' & _ & _ & _ & Hv)|[E Hi]].
  - rewrite (accepted_form_has_no_errors id st fd env w _ r Hv Hr) in He.
    discriminate.
  - split; [|exact Hi]. destruct Hr as [Hr|Hr].
    + rewrite (createInvoice_invalid env w st fd _ E) in Hr.
      inversion Hr; subst r. simpl in He. congruence.
    + rewrite (updateInvoice_invalid env w id st fd _ E) in Hr.
      inversion Hr; subst r. simpl in He. congruence.
Qed.

(** X1. Validation succeeds exactly when the customerId is a string, the
    amount coerces to a number that is not NaN and not at most 0, and the
    status is the string "pending" or "paid"; the data it yields are that
    string, that number and that status. *)
Theorem validation_succeeds_iff
    (c a s : option FormDataEntryValue) (data : InvoiceForm) :
  InvoiceFormSchema_omit_safeParse c a s = inr data
  <-> c = Some (EntryString (customerId data))
      /\ JsNumber.is_nan (Number a) = false
      /\ JsNumber.leb (Number a) (S754_zero false) = false
      /\ amount data = Number a
      /\ s = Some (EntryString (status data))
      /\ (status data = "pending" \/ status data = "paid").
Proof.
  unfold InvoiceFormSchema_omit_safeParse, InvoiceFormSchema_customerId,
    InvoiceFormSchema_amount, InvoiceFormSchema_status, ZodString_parse,
    ZodNumber_coerce_gt_parse, ZodEnum_parse.
  split.
  - intros H.
    destruct c as [[cs|cf]|]; [|destruct (JsNumber.is_nan _);
      [|destruct (JsNumber.leb _ _)]; destruct s as [[sv|sf]|];
      try destruct (not_in_values _ _); discriminate..].
    destruct (JsNumber.is_nan _);
      [destruct s as [[sv|sf]|]; try destruct (not_in_values _ _);
       discriminate|].
    destruct (JsNumber.leb _ _);
      [destruct s as [[sv|sf]|]; try destruct (not_in_values _ _);
       discriminate|].
    destruct s as [[sv|sf]|]; try discriminate.
    destruct (not_in_values _ sv) eqn:E; [discriminate|].
    inversion H; subst data; simpl.
    apply not_in_values_status in E. repeat split; assumption || reflexivity.
  - intros (-> & Hn & Hp & Ha & -> & Hs).
    rewrite Hn, Hp.
    apply not_in_values_status in Hs. rewrite Hs, <- Ha.
    now destruct data.
Qed.

(** X2. Whenever [createInvoice] or [updateInvoice] returns field errors,
    there is at least one, each is filed under "customerId", "amount" or
    "status", and each field holds exactly one message. *)
Theorem field_errors_shape
    (id : string) (st : ActionState) (fd : FormData) (env : Env) (w : World)
    (r : ActionState) (errs : gmap string (list string)) :
  fst (createInvoice st fd env w) = Normal r
  \/ fst (updateInvoice id st fd env w) = Normal r ->
  errors r = Some errs ->
  errs <> ∅
  /\ forall k l,
       errs !! k = Some l ->
       (k = "customerId" \/ k = "amount" \/ k = "status")
       /\ exists msg, l = [msg].
Proof.
  intros Hr He.
  destruct (returned_errors id st fd env w r errs Hr He) as [-> Hi].
  split.
  - intros Hempty.
    assert (Hk : forall k,
               fieldErrors (all_issues (get fd "customerId")
                              (get fd "amount") (get fd "status")) !! k
               = None) by (intros k; rewrite Hempty; apply lookup_empty).
    pose proof (Hk "customerId") as H1. pose proof (Hk "amount") as H2.
    pose proof (Hk "status") as H3.
    rewrite all_issues_customerId in H1. rewrite all_issues_amount in H2.
    rewrite all_issues_status in H3.
    destruct Hi as [Hi|[Hi|Hi]]; apply Hi.
    + destruct (issues_of (InvoiceFormSchema_customerId _));
        [reflexivity|discriminate].
    + destruct (issues_of (InvoiceFormSchema_amount _));
        [reflexivity|discriminate].
    + destruct (issues_of (InvoiceFormSchema_status _));
        [reflexivity|discriminate].
  - intros k l Hk.
    destruct (decide (k = "customerId")) as [->|Hk1].
    { split; [auto|]. rewrite all_issues_customerId, customerId_messages in Hk.
      destruct (get fd "customerId") as [[?|?]|]; inversion Hk; eauto. }
    destruct (decide (k = "amount")) as [->|Hk2].
    { split; [auto|]. rewrite all_issues_amount, amount_messages in Hk.
      destruct (JsNumber.is_nan _); [inversion Hk; eauto|].
      destruct (JsNumber.leb _ _); inversion Hk; eauto. }
    destruct (decide (k = "status")) as [->|Hk3].
    { split; [auto|]. rewrite all_issues_status, status_messages in Hk.
      destruct (get fd "status") as [[v|?]|]; try (inversion Hk; eauto; fail).
      destruct (not_in_values _ v); inversion Hk; eauto. }
    rewrite all_issues_other in Hk by assumption. discriminate.
Qed.

Lemma field_errors_shape_witness :
  fst (createInvoice Sample.no_state Sample.form_draft Sample.env_ok
         Sample.one_invoice)
  = Normal
      {| message := Some "Missing Fields. Failed to Create Invoice.";
         errors := Some {[ "status" :=
           ["Invalid enum value. Expected 'pending' | 'paid', received 'draft'"]
         ]} |}
  /\ ({[ "status" :=
           ["Invalid enum value. Expected 'pending' | 'paid', received 'draft'"]
      ]} : gmap string (list string)) <> ∅.
Proof.
  assert (H : fst (createInvoice Sample.no_state Sample.form_draft
                     Sample.env_ok Sample.one_invoice)
              = Normal
                  {| message :=
                       Some "Missing Fields. Failed to Create Invoice.";
                     errors := Some {[ "status" :=
                       ["Invalid enum value. Expected 'pending' | 'paid', received 'draft'"]
                     ]} |}) by (vm_compute; reflexivity).
  split; [exact H|].
  exact (proj1 (field_errors_shape "inv-1" Sample.no_state Sample.form_draft
                  Sample.env_ok Sample.one_invoice _ _ (or_introl H)
                  eq_refl)).
Defined.

(** X3. Validation does not stop at the first invalid field: the errors
    returned say, for each of the three fields on its own, whether it is
    invalid and why. [errors.customerId] is present exactly when the
    customerId is not a string; [errors.amount] is the NaN message when the
    amount is not numeric, the "greater than $0" message when it is at
    most 0, and absent otherwise; [errors.status] is the friendly message
    when the status is not a string, the default message when it is a
    string other than "pending" and "paid", and absent otherwise. *)
Theorem every_invalid_field_is_reported
    (id : string) (st : ActionState) (fd : FormData) (env : Env) (w : World)
    (r : ActionState) (errs : gmap string (list string)) :
  fst (createInvoice st fd env w) = Normal r
  \/ fst (updateInvoice id st fd env w) = Normal r ->
  errors r = Some errs ->
  errs !! "customerId"
  = match get fd "customerId" with
    | Some (EntryString _) => None
    | _ => Some ["Please select a customer."]
    end
  /\ errs !! "amount"
     = (if JsNumber.is_nan (Number (get fd "amount"))
        then Some ["Expected number, received nan"]
        else if JsNumber.leb (Number (get fd "amount")) (S754_zero false)
             then Some ["Please enter an amount greater than $0."]
             else None)
  /\ errs !! "status"
     = match get fd "status" with
       | Some (EntryString v) =>
           if String.eqb v "pending" || String.eqb v "paid" then None
           else Some ["Invalid enum value. Expected 'pending' | 'paid', received '"
                      +:+ v +:+ "'"]
       | _ => Some ["Please select an invoice status"]
       end.
Proof.
  intros Hr He.
  destruct (returned_errors id st fd env w r errs Hr He) as [-> _].
  rewrite all_issues_customerId, customerId_messages.
  rewrite all_issues_amount, amount_messages.
  rewrite all_issues_status, status_messages.
  split; [|split].
  - destruct (get fd "customerId") as [[?|?]|]; reflexivity.
  - destruct (JsNumber.is_nan _); [reflexivity|].
    destruct (JsNumber.leb _ _); reflexivity.
  - destruct (get fd "status") as [[v|?]|]; try reflexivity.
    unfold not_in_values. simpl. rewrite orb_false_r.
    destruct (String.eqb v "pending" || String.eqb v "paid"); reflexivity.
Qed.

Lemma every_invalid_field_is_reported_witness :
  fst (updateInvoice "inv-1" Sample.no_state [] Sample.env_ok
         Sample.one_invoice)
  = Normal
      {| message := Some "Missing fields. Failed to update invoice";
         errors := Some (fieldErrors (all_issues None None None)) |}
  /\ fieldErrors (all_issues None None None) !! "customerId"
     = Some ["Please select a customer."]
  /\ fieldErrors (all_issues None None None) !! "amount"
     = Some ["Please enter an amount greater than $0."]
  /\ fieldErrors (all_issues None None None) !! "status"
     = Some ["Please select an invoice status"].
Proof.
  assert (H : fst (updateInvoice "inv-1" Sample.no_state [] Sample.env_ok
                     Sample.one_invoice)
              = Normal
                  {| message :=
                       Some "Missing fields. Failed to update invoice";
                     errors := Some (fieldErrors (all_issues None None None))
                  |}) by reflexivity.
  split; [exact H|].
  exact (every_invalid_field_is_reported "inv-1" Sample.no_state []
           Sample.env_ok Sample.one_invoice _ _ (or_intror H) eq_refl).
Defined.

(** X23. When the customerId field is missing or is not a string (no
    customer was selected, or the entry is a file), validation fails in
    both actions and [errors.customerId] is exactly
    ["Please select a customer."]; if moreover the amount is a number above
    0 and the status is "pending" or "paid", this is the only field
    error. *)
Theorem missing_customerId_gets_friendly_message
    (id : string) (st : ActionState) (fd : FormData) (env : Env) (w : World) :
  (forall s, get fd "customerId" <> Some (EntryString s)) ->
  exists errs,
    createInvoice st fd env w
    = (Normal {| message := Some "Missing Fields. Failed to Create Invoice.";
                 errors := Some errs |}, w)
    /\ updateInvoice id st fd env w
       = (Normal {| message :=
                      Some "Missing fields. Failed to update invoice";
                    errors := Some errs |}, w)
    /\ errs !! "customerId" = Some ["Please select a customer."]
    /\ (JsNumber.is_nan (Number (get fd "amount")) = false ->
        JsNumber.leb (Number (get fd "amount")) (S754_zero false) = false ->
        get fd "status" = Some (EntryString "pending")
        \/ get fd "status" = Some (EntryString "paid") ->
        errs = {[ "customerId" := ["Please select a customer."] ]}).
Proof.
  intros H.
  assert (Hm : map Zod.message
                 (issues_of
                    (InvoiceFormSchema_customerId (get fd "customerId")))
               = ["Please select a customer."]).
  { rewrite customerId_messages.
    destruct (get fd "customerId") as [[s|f]|]; try reflexivity.
    now destruct (H s). }
  destruct (rejected_form id st fd env w) as [Hc Hu].
  { left. rewrite Hm. discriminate. }
  eexists. split; [exact Hc|]. split; [exact Hu|]. split.
  - now rewrite all_issues_customerId, Hm.
  - intros Hnan Hpos Hst. apply map_eq. intros k.
    destruct (decide (k = "customerId")) as [->|Hk1].
    { now rewrite all_issues_customerId, Hm, lookup_singleton_eq. }
    rewrite lookup_singleton_ne by congruence.
    destruct (decide (k = "amount")) as [->|Hk2].
    { now rewrite all_issues_amount, amount_messages, Hnan, Hpos. }
    destruct (decide (k = "status")) as [->|Hk3].
    { rewrite all_issues_status, status_messages.
      destruct Hst as [-> | ->]; reflexivity. }
    now apply all_issues_other.
Qed.

Lemma missing_customerId_gets_friendly_message_witness :
  (forall s, get Sample.form_no_customer "customerId"
             <> Some (EntryString s))
  /\ exists errs,
       createInvoice Sample.no_state Sample.form_no_customer Sample.env_ok
         Sample.one_invoice
       = (Normal {| message :=
                      Some "Missing Fields. Failed to Create Invoice.";
                    errors := Some errs |}, Sample.one_invoice)
       /\ updateInvoice "inv-1" Sample.no_state Sample.form_no_customer
            Sample.env_ok Sample.one_invoice
          = (Normal {| message :=
                         Some "Missing fields. Failed to update invoice";
                       errors := Some errs |}, Sample.one_invoice)
       /\ errs = {[ "customerId" := ["Please select a customer."] ]}.
Proof.
  assert (H : forall s, get Sample.form_no_customer "customerId"
                        <> Some (EntryString s)) by (intros s; discriminate).
  split; [exact H|].
  destruct (missing_customerId_gets_friendly_message "inv-1" Sample.no_state
              Sample.form_no_customer Sample.env_ok Sample.one_invoice H)
    as (errs & Hc & Hu & _ & Honly).
  exists errs. split; [exact Hc|]. split; [exact Hu|].
  apply Honly; [vm_compute; reflexivity..|right; reflexivity].
Defined.

(** ** The table *)

Lemma filter_other_ids id (rows : list Db.InvoiceRow) :
  (forall r, In r rows -> Db.id r <> id) ->
  List.filter (fun r => negb (String.eqb (Db.id r) id)) rows = rows.
Proof.
  induction rows as [|r rows IH]; intros H; simpl; [reflexivity|].
  destruct (String.eqb_spec (Db.id r) id) as [Heq|_]; simpl.
  - destruct (H r (or_introl eq_refl) Heq).
  - rewrite IH; [reflexivity|]. intros r' Hr'. apply H. now right.
Qed.

Lemma update_other_ids c a s id (rows : list Db.InvoiceRow) :
  (forall r, In r rows -> Db.id r <> id) ->
  map (fun r => if String.eqb (Db.id r) id then Db.set_fields c a s r else r)
    rows = rows.
Proof.
  induction rows as [|r rows IH]; intros H; simpl; [reflexivity|].
  destruct (String.eqb_spec (Db.id r) id) as [Heq|_].
  - destruct (H r (or_introl eq_refl) Heq).
  - rewrite IH; [reflexivity|]. intros r' Hr'. apply H. now right.
Qed.

Lemma filter_sublist (f : Db.InvoiceRow -> bool) rows :
  List.filter f rows `sublist_of` rows.
Proof.
  induction rows as [|r rows IH]; simpl; [constructor|].
  destruct (f r); now constructor.
Qed.

(** What a successful [createInvoice] leaves behind. *)
Lemma createInvoice_success st fd env w :
  fst (createInvoice st fd env w) = Throw (RedirectError "/dashboard/invoices")
  -> exists data,
       CreateInvoice_safeParse (get fd "customerId") (get fd "amount")
         (get fd "status") = inr data
       /\ sql_failure env (insert_of env data) (invoices w) = None
       /\ snd (createInvoice st fd env w)
          = after_success env w (insert_of env data).
Proof.
  intros Hok.
  destruct (safeParse_cases (get fd "customerId") (get fd "amount")
              (get fd "status"))
    as [(c' & a' & s' & _ & _ & _ & Hv)|[E _]].
  2: { rewrite (createInvoice_invalid env w st fd _ E) in Hok.
       discriminate. }
  eexists. split; [exact Hv|].
  rewrite (createInvoice_valid env w st fd _ Hv) in Hok |- *.
  destruct (sql_failure env _ (invoices w)); [discriminate|].
  split; reflexivity.
Qed.

(** What a successful [updateInvoice] leaves behind. *)
Lemma updateInvoice_success id st fd env w :
  fst (updateInvoice id st fd env w)
  = Throw (RedirectError "/dashboard/invoices")
  -> exists data,
       UpdateInvoice_safeParse (get fd "customerId") (get fd "amount")
         (get fd "status") = inr data
       /\ sql_failure env (update_of id data) (invoices w) = None
       /\ snd (updateInvoice id st fd env w)
          = after_success env w (update_of id data).
Proof.
  intros Hok.
  destruct (safeParse_cases (get fd "customerId") (get fd "amount")
              (get fd "status"))
    as [(c' & a' & s' & _ & _ & _ & Hv)|[E _]].
  2: { rewrite (updateInvoice_invalid env w id st fd _ E) in Hok.
       discriminate. }
  eexists. split; [exact Hv|].
  rewrite (updateInvoice_valid env w id st fd _ Hv) in Hok |- *.
  destruct (sql_failure env _ (invoices w)); [discriminate|].
  split; reflexivity.
Qed.

(** X4. A [createInvoice] that succeeded (it went through to the
    redirect) added exactly one row, at the end of the table: the row has
    the id the database chose, the validated customer and status, the
    amount times 100 and today's date; every row that was there is still
    there, at its place and unchanged. *)
Theorem createInvoice_appends_one_row
    (st : ActionState) (fd : FormData) (env : Env) (w : World) :
  fst (createInvoice st fd env w) = Throw (RedirectError "/dashboard/invoices")
  -> exists data,
       CreateInvoice_safeParse (get fd "customerId") (get fd "amount")
         (get fd "status") = inr data
       /\ invoices (snd (createInvoice st fd env w))
          = (invoices w
             ++ [ {| Db.id := new_id env (invoices w);
                     Db.customer_id := customerId data;
                     Db.amount :=
                       JsNumber.mul (amount data) (JsNumber.of_Z 100);
                     Db.status := status data;
                     Db.date := split_T_0 (now_toISOString env) |} ])%list
       /\ length (invoices (snd (createInvoice st fd env w)))
          = S (length (invoices w))
       /\ forall i r,
            invoices w !! i = Some r ->
            invoices (snd (createInvoice st fd env w)) !! i = Some r.
Proof.
  intros Hok.
  destruct (createInvoice_success st fd env w Hok) as (data & Hv & _ & ->).
  exists data. split; [exact Hv|].
  unfold after_success, insert_of. cbn [invoices Db.execute].
  split; [reflexivity|]. split.
  - rewrite length_app. simpl. lia.
  - intros i r Hr. rewrite lookup_app_l; [exact Hr|].
    now apply lookup_lt_Some in Hr.
Qed.

Lemma createInvoice_appends_one_row_witness :
  fst (createInvoice Sample.no_state Sample.form_12_34 Sample.env_ok
         MoreSamples.two_invoices)
  = Throw (RedirectError "/dashboard/invoices")
  /\ exists data,
       CreateInvoice_safeParse (get Sample.form_12_34 "customerId")
         (get Sample.form_12_34 "amount") (get Sample.form_12_34 "status")
       = inr data
       /\ invoices (snd (createInvoice Sample.no_state Sample.form_12_34
                           Sample.env_ok MoreSamples.two_invoices))
          = (invoices MoreSamples.two_invoices
             ++ [ {| Db.id := "inv-2";
                     Db.customer_id := customerId data;
                     Db.amount :=
                       JsNumber.mul (amount data) (JsNumber.of_Z 100);
                     Db.status := status data;
                     Db.date := "2024-05-06" |} ])%list.
Proof.
  assert (H : fst (createInvoice Sample.no_state Sample.form_12_34
                     Sample.env_ok MoreSamples.two_invoices)
              = Throw (RedirectError "/dashboard/invoices"))
    by (vm_compute; reflexivity).
  split; [exact H|].
  destruct (createInvoice_appends_one_row Sample.no_state Sample.form_12_34
              Sample.env_ok MoreSamples.two_invoices H)
    as (data & Hv & Hrows & _).
  exists data. split; [exact Hv|exact Hrows].
Defined.

(** X5. When the database rejects the statement with an error [e], each of
    the three invoice actions returns normally, without field errors
    ([createInvoice] and [updateInvoice] with their "Database Error"
    message), leaves the table as it was, and does nothing after the
    statement but log [e]: the listing is not invalidated and there is no
    redirect. *)
Theorem database_failure_changes_nothing
    (id : string) (st : ActionState) (fd : FormData) (env : Env) (w : World)
    (e : JsError) :
  (forall data,
     InvoiceFormSchema_omit_safeParse (get fd "customerId") (get fd "amount")
       (get fd "status") = inr data ->
     (sql_failure env (insert_of env data) (invoices w) = Some e ->
      fst (createInvoice st fd env w)
      = Normal {| message := Some "Database Error: Failed to Create Invoice.";
                  errors := None |}
      /\ invoices (snd (createInvoice st fd env w)) = invoices w
      /\ emitted (createInvoice st fd) env w
         = [ Sql (insert_of env data) (Some e); ConsoleLog (LogError e) ])
     /\ (sql_failure env (update_of id data) (invoices w) = Some e ->
         fst (updateInvoice id st fd env w)
         = Normal {| message :=
                       Some "Database Error: Failed to Update Invoice.";
                     errors := None |}
         /\ invoices (snd (updateInvoice id st fd env w)) = invoices w
         /\ emitted (updateInvoice id st fd) env w
            = [ Sql (update_of id data) (Some e); ConsoleLog (LogError e) ]))
  /\ (sql_failure env (Db.DELETE id) (invoices w) = Some e ->
      (exists r, fst (deleteInvoice id env w) = Normal r /\ errors r = None)
      /\ invoices (snd (deleteInvoice id env w)) = invoices w
      /\ emitted (deleteInvoice id) env w
         = [ Sql (Db.DELETE id) (Some e); ConsoleLog (LogError e) ]).
Proof.
  split; [intros data Hv; split|]; intros He.
  - rewrite (createInvoice_valid env w st fd data Hv), He.
    repeat split. apply emitted_app.
    now rewrite (createInvoice_valid env w st fd data Hv), He.
  - rewrite (updateInvoice_valid env w id st fd data Hv), He.
    repeat split. apply emitted_app.
    now rewrite (updateInvoice_valid env w id st fd data Hv), He.
  - rewrite deleteInvoice_run, He.
    split; [eexists; split; reflexivity|]. split; [reflexivity|].
    apply emitted_app. now rewrite deleteInvoice_run, He.
Qed.

Lemma database_failure_changes_nothing_witness :
  sql_failure Sample.env_down (Db.DELETE "inv-1")
    (invoices MoreSamples.two_invoices)
  = Some (OtherError "connection refused")
  /\ invoices (snd (deleteInvoice "inv-1" Sample.env_down
                      MoreSamples.two_invoices))
     = invoices MoreSamples.two_invoices
  /\ emitted (updateInvoice "inv-1" Sample.no_state Sample.form_12_34)
       Sample.env_down MoreSamples.two_invoices
     = [ Sql (update_of "inv-1" Sample.data_12_34)
           (Some (OtherError "connection refused"));
         ConsoleLog (LogError (OtherError "connection refused")) ].
Proof.
  split; [reflexivity|]. split.
  - apply (proj2 (database_failure_changes_nothing "inv-1" Sample.no_state
                    Sample.form_12_34 Sample.env_down
                    MoreSamples.two_invoices
                    (OtherError "connection refused"))).
    reflexivity.
  - apply (proj1 (database_failure_changes_nothing "inv-1" Sample.no_state
                    Sample.form_12_34 Sample.env_down
                    MoreSamples.two_invoices
                    (OtherError "connection refused")) Sample.data_12_34).
    + vm_compute. reflexivity.
    + reflexivity.
Defined.

(** X6. After a [deleteInvoice id] whose statement succeeded, the table
    is the table it was with the rows whose id is [id] filtered out: the
    other rows are all kept, as many times as they occurred and in the
    order they were in. The action returns "Deleted Invoice.", invalidates
    the listing once and does not redirect. *)
Theorem deleteInvoice_removes_matching_rows
    (id : string) (env : Env) (w : World) :
  sql_failure env (Db.DELETE id) (invoices w) = None ->
  fst (deleteInvoice id env w)
  = Normal {| message := Some "Deleted Invoice."; errors := None |}
  /\ invoices (snd (deleteInvoice id env w))
     = List.filter (fun r => negb (String.eqb (Db.id r) id)) (invoices w)
  /\ (forall r,
        In r (invoices (snd (deleteInvoice id env w)))
        <-> In r (invoices w) /\ Db.id r <> id)
  /\ invoices (snd (deleteInvoice id env w)) `sublist_of` invoices w
  /\ emitted (deleteInvoice id) env w
     = [ Sql (Db.DELETE id) None; RevalidatePath "/dashboard/invoices" ].
Proof.
  intros Hok. rewrite deleteInvoice_run, Hok. cbn [fst snd invoices].
  split; [reflexivity|]. split; [reflexivity|]. split; [|split].
  - intros r. simpl. rewrite filter_In.
    destruct (String.eqb_spec (Db.id r) id); simpl; intuition congruence.
  - apply filter_sublist.
  - apply emitted_app. now rewrite deleteInvoice_run, Hok.
Qed.

Lemma deleteInvoice_removes_matching_rows_witness :
  sql_failure Sample.env_ok (Db.DELETE "inv-1")
    (invoices MoreSamples.two_invoices) = None
  /\ fst (deleteInvoice "inv-1" Sample.env_ok MoreSamples.two_invoices)
     = Normal {| message := Some "Deleted Invoice."; errors := None |}
  /\ invoices (snd (deleteInvoice "inv-1" Sample.env_ok
                      MoreSamples.two_invoices))
     = List.filter (fun r => negb (String.eqb (Db.id r) "inv-1"))
         (invoices MoreSamples.two_invoices)
  /\ emitted (deleteInvoice "inv-1") Sample.env_ok MoreSamples.two_invoices
     = [ Sql (Db.DELETE "inv-1") None; RevalidatePath "/dashboard/invoices" ].
Proof.
  assert (H : sql_failure Sample.env_ok (Db.DELETE "inv-1")
                (invoices MoreSamples.two_invoices) = None) by reflexivity.
  split; [exact H|].
  destruct (deleteInvoice_removes_matching_rows "inv-1" Sample.env_ok
              MoreSamples.two_invoices H) as (Hr & Hrows & _ & _ & Ht).
  split; [exact Hr|]. split; [exact Hrows|exact Ht].
Defined.

(** X7. Deleting an id that no row has is a success that changes
    nothing: when the statement goes through, [deleteInvoice] returns
    "Deleted Invoice." and the table is the one it was. The action does
    not look at how many rows the statement removed. *)
Theorem deleteInvoice_unknown_id_is_silent
    (id : string) (env : Env) (w : World) :
  (forall r, In r (invoices w) -> Db.id r <> id) ->
  sql_failure env (Db.DELETE id) (invoices w) = None ->
  fst (deleteInvoice id env w)
  = Normal {| message := Some "Deleted Invoice."; errors := None |}
  /\ invoices (snd (deleteInvoice id env w)) = invoices w.
Proof.
  intros Hfresh Hok. rewrite deleteInvoice_run, Hok. cbn [fst snd invoices].
  split; [reflexivity|]. simpl. now apply filter_other_ids.
Qed.

Lemma deleteInvoice_unknown_id_is_silent_witness :
  (forall r, In r (invoices MoreSamples.two_invoices) ->
             Db.id r <> "no-such-id")
  /\ sql_failure Sample.env_ok (Db.DELETE "no-such-id")
       (invoices MoreSamples.two_invoices) = None
  /\ fst (deleteInvoice "no-such-id" Sample.env_ok MoreSamples.two_invoices)
     = Normal {| message := Some "Deleted Invoice."; errors := None |}
  /\ invoices (snd (deleteInvoice "no-such-id" Sample.env_ok
                      MoreSamples.two_invoices))
     = invoices MoreSamples.two_invoices.
Proof.
  assert (Hfresh : forall r, In r (invoices MoreSamples.two_invoices) ->
                             Db.id r <> "no-such-id").
  { intros r [<-|[<-|[]]]; discriminate. }
  split; [exact Hfresh|]. split; [reflexivity|].
  exact (deleteInvoice_unknown_id_is_silent "no-such-id" Sample.env_ok
           MoreSamples.two_invoices Hfresh eq_refl).
Defined.

(** X8. Updating an id that no row has is reported as a success and
    changes nothing: an [updateInvoice] that went through to the redirect
    leaves the table as it was when no row has the id. *)
Theorem updateInvoice_unknown_id_is_silent
    (id : string) (st : ActionState) (fd : FormData) (env : Env) (w : World) :
  (forall r, In r (invoices w) -> Db.id r <> id) ->
  fst (updateInvoice id st fd env w)
  = Throw (RedirectError "/dashboard/invoices") ->
  invoices (snd (updateInvoice id st fd env w)) = invoices w.
Proof.
  intros Hfresh Hok.
  destruct (updateInvoice_success id st fd env w Hok) as (data & _ & _ & ->).
  unfold after_success, update_of. cbn [invoices Db.execute].
  now apply update_other_ids.
Qed.

Lemma updateInvoice_unknown_id_is_silent_witness :
  (forall r, In r (invoices MoreSamples.two_invoices) ->
             Db.id r <> "no-such-id")
  /\ fst (updateInvoice "no-such-id" Sample.no_state Sample.form_12_34
            Sample.env_ok MoreSamples.two_invoices)
     = Throw (RedirectError "/dashboard/invoices")
  /\ invoices (snd (updateInvoice "no-such-id" Sample.no_state
                      Sample.form_12_34 Sample.env_ok
                      MoreSamples.two_invoices))
     = invoices MoreSamples.two_invoices.
Proof.
  assert (Hfresh : forall r, In r (invoices MoreSamples.two_invoices) ->
                             Db.id r <> "no-such-id").
  { intros r [<-|[<-|[]]]; discriminate. }
  assert (Hok : fst (updateInvoice "no-such-id" Sample.no_state
                       Sample.form_12_34 Sample.env_ok
                       MoreSamples.two_invoices)
                = Throw (RedirectError "/dashboard/invoices"))
    by (vm_compute; reflexivity).
  split; [exact Hfresh|]. split; [exact Hok|].
  exact (updateInvoice_unknown_id_is_silent "no-such-id" Sample.no_state
           Sample.form_12_34 Sample.env_ok MoreSamples.two_invoices
           Hfresh Hok).
Defined.

Lemma update_twice c a s id (rows : list Db.InvoiceRow) :
  let f := fun r =>
             if String.eqb (Db.id r) id then Db.set_fields c a s r else r in
  map f (map f rows) = map f rows.
Proof.
  intros f. rewrite map_map. apply map_ext. intros r. unfold f.
  destruct (String.eqb (Db.id r) id) eqn:E; [|now rewrite E].
  simpl. rewrite E. reflexivity.
Qed.

(** X9. Submitting the same update twice is the same as submitting it
    once: when [updateInvoice id] succeeds and is run again with the same
    form on the world it left, and succeeds again, the table does not
    change the second time. *)
Theorem updateInvoice_twice_is_once
    (id : string) (st st' : ActionState) (fd : FormData) (env : Env)
    (w : World) :
  let w1 := snd (updateInvoice id st fd env w) in
  fst (updateInvoice id st fd env w)
  = Throw (RedirectError "/dashboard/invoices") ->
  fst (updateInvoice id st' fd env w1)
  = Throw (RedirectError "/dashboard/invoices") ->
  invoices (snd (updateInvoice id st' fd env w1)) = invoices w1.
Proof.
  intros w1 Hok1 Hok2. subst w1.
  destruct (updateInvoice_success id st' fd env _ Hok2)
    as (data2 & Hv2 & _ & ->).
  destruct (updateInvoice_success id st fd env w Hok1)
    as (data1 & Hv1 & _ & ->).
  assert (data2 = data1) by congruence. subst data2.
  unfold after_success, update_of. cbn [invoices Db.execute].
  apply update_twice.
Qed.

Lemma updateInvoice_twice_is_once_witness :
  fst (updateInvoice "inv-7" Sample.no_state Sample.form_12_345 Sample.env_ok
         MoreSamples.two_invoices)
  = Throw (RedirectError "/dashboard/invoices")
  /\ invoices
       (snd (updateInvoice "inv-7" Sample.stale_state Sample.form_12_345
               Sample.env_ok
               (snd (updateInvoice "inv-7" Sample.no_state Sample.form_12_345
                       Sample.env_ok MoreSamples.two_invoices))))
     = invoices (snd (updateInvoice "inv-7" Sample.no_state
                        Sample.form_12_345 Sample.env_ok
                        MoreSamples.two_invoices)).
Proof.
  assert (H1 : fst (updateInvoice "inv-7" Sample.no_state Sample.form_12_345
                      Sample.env_ok MoreSamples.two_invoices)
               = Throw (RedirectError "/dashboard/invoices"))
    by (vm_compute; reflexivity).
  split; [exact H1|].
  apply (updateInvoice_twice_is_once "inv-7" Sample.no_state
           Sample.stale_state Sample.form_12_345 Sample.env_ok
           MoreSamples.two_invoices H1).
  vm_compute. reflexivity.
Defined.

(** X10. Creating an invoice and then deleting the row it created gives
    back the table one started from, provided the id the database chose
    for the new row is not the id of a row that was there: the insert and
    the delete of the new id undo each other. *)
Theorem create_then_delete_restores_table
    (st : ActionState) (fd : FormData) (env : Env) (w : World) :
  let w1 := snd (createInvoice st fd env w) in
  let fresh := new_id env (invoices w) in
  (forall r, In r (invoices w) -> Db.id r <> fresh) ->
  fst (createInvoice st fd env w) = Throw (RedirectError "/dashboard/invoices")
  -> sql_failure env (Db.DELETE fresh) (invoices w1) = None ->
  invoices (snd (deleteInvoice fresh env w1)) = invoices w.
Proof.
  intros w1 fresh Hfresh Hok Hdel.
  rewrite deleteInvoice_run, Hdel. cbn [snd invoices]. subst w1.
  destruct (createInvoice_success st fd env w Hok) as (data & _ & _ & ->).
  unfold after_success, insert_of. cbn [invoices Db.execute].
  rewrite List.filter_app, (filter_other_ids fresh _ Hfresh). simpl.
  fold fresh. rewrite String.eqb_refl. simpl. apply app_nil_r.
Qed.

Lemma create_then_delete_restores_table_witness :
  (forall r, In r (invoices MoreSamples.two_invoices) -> Db.id r <> "inv-2")
  /\ fst (createInvoice Sample.no_state Sample.form_12_34 Sample.env_ok
            MoreSamples.two_invoices)
     = Throw (RedirectError "/dashboard/invoices")
  /\ invoices
       (snd (deleteInvoice "inv-2" Sample.env_ok
               (snd (createInvoice Sample.no_state Sample.form_12_34
                       Sample.env_ok MoreSamples.two_invoices))))
     = invoices MoreSamples.two_invoices.
Proof.
  assert (Hfresh : forall r, In r (invoices MoreSamples.two_invoices) ->
                             Db.id r <> "inv-2").
  { intros r [<-|[<-|[]]]; discriminate. }
  assert (Hok : fst (createInvoice Sample.no_state Sample.form_12_34
                       Sample.env_ok MoreSamples.two_invoices)
                = Throw (RedirectError "/dashboard/invoices"))
    by (vm_compute; reflexivity).
  split; [exact Hfresh|]. split; [exact Hok|].
  exact (create_then_delete_restores_table Sample.no_state Sample.form_12_34
           Sample.env_ok MoreSamples.two_invoices Hfresh Hok eq_refl).
Defined.

(** X21. Deleting twice is the same as deleting once: after a
    [deleteInvoice id] whose statement succeeded, no row has the id, and a
    second [deleteInvoice id] whose statement succeeds returns
    "Deleted Invoice." again and leaves the table as the first left it. *)
Theorem deleteInvoice_twice_is_once (id : string) (env : Env) (w : World) :
  let w1 := snd (deleteInvoice id env w) in
  sql_failure env (Db.DELETE id) (invoices w) = None ->
  sql_failure env (Db.DELETE id) (invoices w1) = None ->
  (forall r, In r (invoices w1) -> Db.id r <> id)
  /\ fst (deleteInvoice id env w1)
     = Normal {| message := Some "Deleted Invoice."; errors := None |}
  /\ invoices (snd (deleteInvoice id env w1)) = invoices w1.
Proof.
  intros w1 Hok1 Hok2.
  assert (Hgone : forall r, In r (invoices w1) -> Db.id r <> id).
  { subst w1. rewrite deleteInvoice_run, Hok1. cbn [snd invoices]. simpl.
    intros r Hr. apply filter_In in Hr as [_ Hr].
    destruct (String.eqb_spec (Db.id r) id); [discriminate|assumption]. }
  split; [exact Hgone|].
  rewrite deleteInvoice_run, Hok2. cbn [fst snd invoices].
  split; [reflexivity|]. simpl. now apply filter_other_ids.
Qed.

Lemma deleteInvoice_twice_is_once_witness :
  sql_failure Sample.env_ok (Db.DELETE "inv-7")
    (invoices MoreSamples.two_invoices) = None
  /\ invoices
       (snd (deleteInvoice "inv-7" Sample.env_ok
               (snd (deleteInvoice "inv-7" Sample.env_ok
                       MoreSamples.two_invoices))))
     = invoices (snd (deleteInvoice "inv-7" Sample.env_ok
                        MoreSamples.two_invoices)).
Proof.
  split; [reflexivity|].
  exact (proj2 (proj2 (deleteInvoice_twice_is_once "inv-7" Sample.env_ok
                         MoreSamples.two_invoices eq_refl eq_refl))).
Defined.

(** X22. Nothing guards against a double submit: when the same form is
    run through [createInvoice] twice and both calls succeed, the table
    ends with two new rows, one after the other, that hold the same
    customer, amount and status. Each row has the date of the clock at its
    own call and the id the database gave it at that call, so the two may
    differ in date and in id. *)
Theorem createInvoice_twice_adds_two_rows
    (st st' : ActionState) (fd : FormData) (env env' : Env) (w : World) :
  let w1 := snd (createInvoice st fd env w) in
  fst (createInvoice st fd env w) = Throw (RedirectError "/dashboard/invoices")
  -> fst (createInvoice st' fd env' w1)
     = Throw (RedirectError "/dashboard/invoices") ->
  exists data,
    CreateInvoice_safeParse (get fd "customerId") (get fd "amount")
      (get fd "status") = inr data
    /\ invoices (snd (createInvoice st' fd env' w1))
       = (invoices w
          ++ [ {| Db.id := new_id env (invoices w);
                  Db.customer_id := customerId data;
                  Db.amount := JsNumber.mul (amount data) (JsNumber.of_Z 100);
                  Db.status := status data;
                  Db.date := split_T_0 (now_toISOString env) |};
               {| Db.id := new_id env' (invoices w1);
                  Db.customer_id := customerId data;
                  Db.amount := JsNumber.mul (amount data) (JsNumber.of_Z 100);
                  Db.status := status data;
                  Db.date := split_T_0 (now_toISOString env') |} ])%list.
Proof.
  intros w1 Hok1 Hok2.
  destruct (createInvoice_success st' fd env' w1 Hok2)
    as (data2 & Hv2 & _ & ->).
  subst w1.
  destruct (createInvoice_success st fd env w Hok1)
    as (data1 & Hv1 & _ & E).
  assert (data2 = data1) by congruence. subst data2.
  exists data1. split; [exact Hv1|].
  rewrite E. unfold after_success, insert_of. cbn [invoices Db.execute].
  now rewrite <- List.app_assoc.
Qed.

Lemma createInvoice_twice_adds_two_rows_witness :
  fst (createInvoice Sample.no_state Sample.form_12_34 Sample.env_ok
         Sample.one_invoice)
  = Throw (RedirectError "/dashboard/invoices")
  /\ map Db.date
       (invoices
          (snd (createInvoice Sample.stale_state Sample.form_12_34
                  (MoreSamples.env_at "2024-05-07T00:00:01.000Z")
                  (snd (createInvoice Sample.no_state Sample.form_12_34
                          Sample.env_ok Sample.one_invoice)))))
     = ["2020-01-01"; "2024-05-06"; "2024-05-07"].
Proof.
  assert (H1 : fst (createInvoice Sample.no_state Sample.form_12_34
                      Sample.env_ok Sample.one_invoice)
               = Throw (RedirectError "/dashboard/invoices"))
    by (vm_compute; reflexivity).
  split; [exact H1|].
  destruct (createInvoice_twice_adds_two_rows Sample.no_state
              Sample.stale_state Sample.form_12_34 Sample.env_ok
              (MoreSamples.env_at "2024-05-07T00:00:01.000Z")
              Sample.one_invoice H1) as (data & _ & ->).
  - vm_compute. reflexivity.
  - reflexivity.
Defined.

(** ** Traces *)

(** The events each invoice action adds, case by case. *)
Lemma emitted_createInvoice st fd env w :
  emitted (createInvoice st fd) env w
  = match CreateInvoice_safeParse (get fd "customerId") (get fd "amount")
            (get fd "status") with
    | inl _ => []
    | inr data =>
        match sql_failure env (insert_of env data) (invoices w) with
        | None => [ Sql (insert_of env data) None;
                    RevalidatePath "/dashboard/invoices";
                    Redirect "/dashboard/invoices" ]
        | Some e => [ Sql (insert_of env data) (Some e);
                      ConsoleLog (LogError e) ]
        end
    end.
Proof.
  destruct (CreateInvoice_safeParse _ _ _) as [issues|data] eqn:Hv.
  - unfold emitted. rewrite (createInvoice_invalid env w st fd _ Hv).
    apply drop_all.
  - apply emitted_app. rewrite (createInvoice_valid env w st fd _ Hv).
    destruct (sql_failure env _ _); reflexivity.
Qed.

Lemma emitted_updateInvoice id st fd env w :
  emitted (updateInvoice id st fd) env w
  = match UpdateInvoice_safeParse (get fd "customerId") (get fd "amount")
            (get fd "status") with
    | inl _ => []
    | inr data =>
        match sql_failure env (update_of id data) (invoices w) with
        | None => [ Sql (update_of id data) None;
                    RevalidatePath "/dashboard/invoices";
                    Redirect "/dashboard/invoices" ]
        | Some e => [ Sql (update_of id data) (Some e);
                      ConsoleLog (LogError e) ]
        end
    end.
Proof.
  destruct (UpdateInvoice_safeParse _ _ _) as [issues|data] eqn:Hv.
  - unfold emitted. rewrite (updateInvoice_invalid env w id st fd _ Hv).
    apply drop_all.
  - apply emitted_app. rewrite (updateInvoice_valid env w id st fd _ Hv).
    destruct (sql_failure env _ _); reflexivity.
Qed.

Lemma emitted_deleteInvoice id env w :
  emitted (deleteInvoice id) env w
  = match sql_failure env (Db.DELETE id) (invoices w) with
    | None => [ Sql (Db.DELETE id) None;
                RevalidatePath "/dashboard/invoices" ]
    | Some e => [ Sql (Db.DELETE id) (Some e); ConsoleLog (LogError e) ]
    end.
Proof.
  apply emitted_app. rewrite deleteInvoice_run.
  destruct (sql_failure env _ _); reflexivity.
Qed.

Lemma emitted_authenticate st fd env w :
  emitted (authenticate st fd) env w
  = [ ConsoleLog (LogFormData fd); SignIn "credentials" fd ].
Proof. apply emitted_app. now rewrite authenticate_run. Qed.

(** Membership in a short explicit trace, by cases. *)
Ltac in_trace H :=
  repeat (apply elem_of_cons in H as [H|H]; [try discriminate H|]);
  try (apply elem_of_nil in H; destruct H).

(** X11. What each call sends to the database: [createInvoice] one INSERT
    when validation passes and nothing otherwise, [updateInvoice] one
    UPDATE for its id when validation passes and nothing otherwise,
    [deleteInvoice] always one DELETE for its id, and [authenticate]
    nothing. No call sends two statements. *)
Theorem one_statement_per_call
    (id : string) (st : ActionState) (prev : option string) (fd : FormData)
    (env : Env) (w : World) :
  statements_sent (createInvoice st fd) env w
  = match CreateInvoice_safeParse (get fd "customerId") (get fd "amount")
            (get fd "status") with
    | inl _ => []
    | inr data => [insert_of env data]
    end
  /\ statements_sent (updateInvoice id st fd) env w
     = match UpdateInvoice_safeParse (get fd "customerId") (get fd "amount")
               (get fd "status") with
       | inl _ => []
       | inr data => [update_of id data]
       end
  /\ statements_sent (deleteInvoice id) env w = [Db.DELETE id]
  /\ statements_sent (authenticate prev fd) env w = [].
Proof.
  unfold statements_sent.
  rewrite emitted_createInvoice, emitted_updateInvoice, emitted_deleteInvoice,
    emitted_authenticate.
  repeat split.
  - destruct (CreateInvoice_safeParse _ _ _); [reflexivity|].
    destruct (sql_failure env _ _); reflexivity.
  - destruct (UpdateInvoice_safeParse _ _ _); [reflexivity|].
    destruct (sql_failure env _ _); reflexivity.
  - destruct (sql_failure env _ _); reflexivity.
Qed.

(** X13. The invoices listing is invalidated exactly when a statement
    succeeded, and no other path ever is: in the trace of
    [createInvoice], [updateInvoice] and [deleteInvoice], an invalidation
    of a path occurs if and only if the path is "/dashboard/invoices" and
    the trace holds a statement the database accepted. [deleteInvoice]
    never redirects. *)
Theorem listing_invalidated_iff_statement_accepted
    (id : string) (st : ActionState) (fd : FormData) (env : Env) (w : World)
    (path : string) :
  (RevalidatePath path ∈ emitted (createInvoice st fd) env w
   <-> path = "/dashboard/invoices"
       /\ exists q, Sql q None ∈ emitted (createInvoice st fd) env w)
  /\ (RevalidatePath path ∈ emitted (updateInvoice id st fd) env w
      <-> path = "/dashboard/invoices"
          /\ exists q, Sql q None ∈ emitted (updateInvoice id st fd) env w)
  /\ (RevalidatePath path ∈ emitted (deleteInvoice id) env w
      <-> path = "/dashboard/invoices"
          /\ exists q, Sql q None ∈ emitted (deleteInvoice id) env w)
  /\ Redirect path ∉ emitted (deleteInvoice id) env w.
Proof.
  rewrite emitted_createInvoice, emitted_updateInvoice, emitted_deleteInvoice.
  split; [|split; [|split]].
  - destruct (CreateInvoice_safeParse _ _ _) as [issues|data].
    + split; [intros H; in_trace H|intros [_ [q H]]; in_trace H].
    + destruct (sql_failure env _ _).
      * split; [intros H; in_trace H|intros [_ [q H]]; in_trace H].
      * split.
        -- intros H. in_trace H. inversion H; subst path.
           split; [reflexivity|]. eexists. apply list_elem_of_here.
        -- intros [-> _]. apply list_elem_of_further, list_elem_of_here.
  - destruct (UpdateInvoice_safeParse _ _ _) as [issues|data].
    + split; [intros H; in_trace H|intros [_ [q H]]; in_trace H].
    + destruct (sql_failure env _ _).
      * split; [intros H; in_trace H|intros [_ [q H]]; in_trace H].
      * split.
        -- intros H. in_trace H. inversion H; subst path.
           split; [reflexivity|]. eexists. apply list_elem_of_here.
        -- intros [-> _]. apply list_elem_of_further, list_elem_of_here.
  - destruct (sql_failure env _ _).
    + split; [intros H; in_trace H|intros [_ [q H]]; in_trace H].
    + split.
      * intros H. in_trace H. inversion H; subst path.
        split; [reflexivity|]. eexists. apply list_elem_of_here.
      * intros [-> _]. apply list_elem_of_further, list_elem_of_here.
  - intros H. destruct (sql_failure env _ _); in_trace H.
Qed.

(** ** Signing in *)

(** X14. On every call, whatever the sign-in provider then does,
    [authenticate] first writes the submitted form, credentials included,
    to the console, and then calls [signIn] once, with the provider
    "credentials" and the form as it received it; it does nothing else.
    When [signIn] returns without throwing, [authenticate] returns
    [undefined]. *)
Theorem authenticate_logs_form_then_signs_in
    (prev : option string) (fd : FormData) (env : Env) (w : World) :
  emitted (authenticate prev fd) env w
  = [ ConsoleLog (LogFormData fd); SignIn "credentials" fd ]
  /\ (signIn_failure env "credentials" fd = None ->
      fst (authenticate prev fd env w) = Normal None).
Proof.
  split; [apply emitted_authenticate|].
  intros H. now rewrite authenticate_run, H.
Qed.

Lemma authenticate_logs_form_then_signs_in_witness :
  signIn_failure (Sample.env_signIn None) "credentials" Sample.form_12_34
  = None
  /\ fst (authenticate (Some "Invalid credentials.") Sample.form_12_34
            (Sample.env_signIn None) Sample.one_invoice)
     = Normal None.
Proof.
  split; [reflexivity|].
  apply (proj2 (authenticate_logs_form_then_signs_in
                  (Some "Invalid credentials.") Sample.form_12_34
                  (Sample.env_signIn None) Sample.one_invoice)).
  reflexivity.
Defined.

(** ** The date of a new invoice *)

Lemma split_T_0_prefix d rest :
  (forall c, In c (list_ascii_of_string d) -> c <> "T"%char) ->
  split_T_0 (d +:+ String "T" rest) = d.
Proof.
  induction d as [|c d IH]; intros H; simpl; [reflexivity|].
  destruct (Ascii.eqb_spec c "T") as [->|_].
  - now destruct (H "T"%char (or_introl eq_refl)).
  - rewrite IH; [reflexivity|]. intros c' Hc'. apply H. now right.
Qed.

Lemma split_T_0_has_no_T s c :
  In c (list_ascii_of_string (split_T_0 s)) -> c <> "T"%char.
Proof.
  induction s as [|c0 s IH]; simpl; [now intros []|].
  destruct (Ascii.eqb_spec c0 "T") as [->|Hne]; simpl; [now intros []|].
  intros [<-|H]; [exact Hne|now apply IH].
Qed.

(** X15. The date [createInvoice] gives a new invoice is the part of the
    clock's ISO timestamp before its first "T": when the timestamp reads
    [d], then "T", then anything, and [d] holds no "T", the INSERT is sent
    the date [d]. Whatever the clock reads, the date sent holds no "T". *)
Theorem created_invoice_is_dated_by_the_clock
    (st : ActionState) (fd : FormData) (env : Env) (w : World)
    (data : InvoiceForm) (d rest : string) :
  CreateInvoice_safeParse (get fd "customerId") (get fd "amount")
    (get fd "status") = inr data ->
  now_toISOString env = d +:+ String "T" rest ->
  (forall c, In c (list_ascii_of_string d) -> c <> "T"%char) ->
  statements_sent (createInvoice st fd) env w
  = [ Db.INSERT (customerId data)
        (JsNumber.mul (amount data) (JsNumber.of_Z 100)) (status data) d ]
  /\ forall env' w' date c a s,
       statements_sent (createInvoice st fd) env' w' = [Db.INSERT c a s date]
       -> forall ch, In ch (list_ascii_of_string date) -> ch <> "T"%char.
Proof.
  intros Hv Hnow Hd. split.
  - rewrite (createInvoice_sends st fd env w data Hv).
    unfold insert_of. now rewrite Hnow, split_T_0_prefix.
  - intros env' w' date c a s Hs ch.
    rewrite (createInvoice_sends st fd env' w' data Hv) in Hs.
    unfold insert_of in Hs. inversion Hs; subst. apply split_T_0_has_no_T.
Qed.

Lemma created_invoice_is_dated_by_the_clock_witness :
  CreateInvoice_safeParse (get Sample.form_12_34 "customerId")
    (get Sample.form_12_34 "amount") (get Sample.form_12_34 "status")
  = inr Sample.data_12_34
  /\ now_toISOString (MoreSamples.env_at "2031-12-31T23:59:59.999Z")
     = "2031-12-31" +:+ String "T" "23:59:59.999Z"
  /\ statements_sent (createInvoice Sample.no_state Sample.form_12_34)
       (MoreSamples.env_at "2031-12-31T23:59:59.999Z")
       MoreSamples.two_invoices
     = [ Db.INSERT (customerId Sample.data_12_34)
           (JsNumber.mul (amount Sample.data_12_34) (JsNumber.of_Z 100))
           (status Sample.data_12_34) "2031-12-31" ].
Proof.
  assert (Hv : CreateInvoice_safeParse (get Sample.form_12_34 "customerId")
                 (get Sample.form_12_34 "amount")
                 (get Sample.form_12_34 "status")
               = inr Sample.data_12_34) by (vm_compute; reflexivity).
  split; [exact Hv|]. split; [reflexivity|].
  apply (created_invoice_is_dated_by_the_clock Sample.no_state
           Sample.form_12_34
           (MoreSamples.env_at "2031-12-31T23:59:59.999Z")
           MoreSamples.two_invoices Sample.data_12_34 "2031-12-31"
           "23:59:59.999Z" Hv eq_refl).
  intros c Hc. simpl in Hc.
  repeat (destruct Hc as [<-|Hc]; [discriminate|]). destruct Hc.
Defined.

(** ** Edge cases of the amount *)

(** A form with a string customerId, an amount above 0 and a status of the
    enum passes validation, with these three values as its data. *)
Lemma safeParse_accepts c a s cs sv :
  c = Some (EntryString cs) ->
  JsNumber.is_nan (Number a) = false ->
  JsNumber.leb (Number a) (S754_zero false) = false ->
  s = Some (EntryString sv) ->
  sv = "pending" \/ sv = "paid" ->
  InvoiceFormSchema_omit_safeParse c a s
  = inr {| customerId := cs; amount := Number a; status := sv |}.
Proof.
  intros -> Hn Hp -> Hs.
  unfold InvoiceFormSchema_omit_safeParse, InvoiceFormSchema_customerId,
    InvoiceFormSchema_amount, InvoiceFormSchema_status, ZodString_parse,
    ZodNumber_coerce_gt_parse, ZodEnum_parse.
  rewrite Hn, Hp. apply not_in_values_status in Hs. now rewrite Hs.
Qed.

(** X16. The amount check has no upper bound: an amount that coerces to
    +Infinity (the text "Infinity", or a decimal too large for a number,
    such as "1e999") passes validation, and both actions send Infinity to
    the database as the amount in cents. *)
Theorem infinite_amount_is_accepted
    (id : string) (st : ActionState) (fd : FormData) (env : Env) (w : World)
    (c s : string) :
  get fd "customerId" = Some (EntryString c) ->
  Number (get fd "amount") = S754_infinity false ->
  get fd "status" = Some (EntryString s) ->
  s = "pending" \/ s = "paid" ->
  statements_sent (createInvoice st fd) env w
  = [ Db.INSERT c (S754_infinity false) s (split_T_0 (now_toISOString env)) ]
  /\ statements_sent (updateInvoice id st fd) env w
     = [ Db.UPDATE c (S754_infinity false) s id ].
Proof.
  intros Hc Ha Hs Hv.
  assert (H : InvoiceFormSchema_omit_safeParse (get fd "customerId")
                (get fd "amount") (get fd "status")
              = inr {| customerId := c; amount := S754_infinity false;
                       status := s |}).
  { rewrite <- Ha. apply safeParse_accepts; try assumption;
      now rewrite Ha. }
  split.
  - now rewrite (createInvoice_sends st fd env w _ H).
  - now rewrite (updateInvoice_sends id st fd env w _ H).
Qed.

Lemma infinite_amount_is_accepted_witness :
  get MoreSamples.form_infinite_amount "customerId" = Some (EntryString "c1")
  /\ Number (get MoreSamples.form_infinite_amount "amount")
     = S754_infinity false
  /\ get MoreSamples.form_infinite_amount "status"
     = Some (EntryString "pending")
  /\ statements_sent
       (createInvoice Sample.no_state MoreSamples.form_infinite_amount)
       Sample.env_ok Sample.one_invoice
     = [ Db.INSERT "c1" (S754_infinity false) "pending" "2024-05-06" ]
  /\ statements_sent
       (updateInvoice "inv-1" Sample.no_state
          MoreSamples.form_infinite_amount)
       Sample.env_ok Sample.one_invoice
     = [ Db.UPDATE "c1" (S754_infinity false) "pending" "inv-1" ].
Proof.
  assert (Ha : Number (get MoreSamples.form_infinite_amount "amount")
               = S754_infinity false) by (vm_compute; reflexivity).
  split; [reflexivity|]. split; [exact Ha|]. split; [reflexivity|].
  exact (infinite_amount_is_accepted "inv-1" Sample.no_state
           MoreSamples.form_infinite_amount Sample.env_ok Sample.one_invoice
           "c1" "pending" eq_refl Ha eq_refl (or_introl eq_refl)).
Defined.

(** X17. A form with no amount entry, and a form whose amount is blank
    (empty or white space only), are rejected by both actions with
    [errors.amount] exactly ["Please enter an amount greater than $0."]:
    both coerce to 0, so there is no "required" message for the amount.
    A form whose amount is an uploaded file is rejected with
    ["Expected number, received nan"]. *)
Theorem missing_or_blank_amount_is_zero
    (id : string) (st : ActionState) (fd : FormData) (env : Env) (w : World) :
  (get fd "amount" = None
   \/ (exists s, get fd "amount" = Some (EntryString s)
                 /\ JsNumber.only_ws s = true) ->
   exists errs,
     createInvoice st fd env w
     = (Normal {| message := Some "Missing Fields. Failed to Create Invoice.";
                  errors := Some errs |}, w)
     /\ updateInvoice id st fd env w
        = (Normal {| message :=
                       Some "Missing fields. Failed to update invoice";
                     errors := Some errs |}, w)
     /\ errs !! "amount" = Some ["Please enter an amount greater than $0."])
  /\ (forall f,
        get fd "amount" = Some (EntryFile f) ->
        exists errs,
          createInvoice st fd env w
          = (Normal {| message :=
                         Some "Missing Fields. Failed to Create Invoice.";
                       errors := Some errs |}, w)
          /\ updateInvoice id st fd env w
             = (Normal {| message :=
                            Some "Missing fields. Failed to update invoice";
                          errors := Some errs |}, w)
          /\ errs !! "amount" = Some ["Expected number, received nan"]).
Proof.
  split.
  - intros H.
    assert (Hz : Number (get fd "amount") = S754_zero false).
    { destruct H as [->|(s & -> & Hs)]; [reflexivity|].
      simpl. unfold JsNumber.StringToNumber.
      unfold JsNumber.only_ws in Hs.
      destruct (JsNumber.skip_ws s); [reflexivity|discriminate]. }
    assert (Hm : map Zod.message
                   (issues_of (InvoiceFormSchema_amount (get fd "amount")))
                 = ["Please enter an amount greater than $0."]).
    { rewrite amount_messages, Hz. reflexivity. }
    destruct (rejected_form id st fd env w) as [Hc Hu].
    { right; left. rewrite Hm. discriminate. }
    eexists. split; [exact Hc|]. split; [exact Hu|].
    now rewrite all_issues_amount, Hm.
  - intros f Hf.
    assert (Hm : map Zod.message
                   (issues_of (InvoiceFormSchema_amount (get fd "amount")))
                 = ["Expected number, received nan"]).
    { rewrite amount_messages, Hf. reflexivity. }
    destruct (rejected_form id st fd env w) as [Hc Hu].
    { right; left. rewrite Hm. discriminate. }
    eexists. split; [exact Hc|]. split; [exact Hu|].
    now rewrite all_issues_amount, Hm.
Qed.

Lemma missing_or_blank_amount_is_zero_witness :
  (get MoreSamples.form_no_amount "amount" = None
   /\ exists errs,
        createInvoice Sample.no_state MoreSamples.form_no_amount
          Sample.env_ok Sample.one_invoice
        = (Normal {| message :=
                       Some "Missing Fields. Failed to Create Invoice.";
                     errors := Some errs |}, Sample.one_invoice)
        /\ updateInvoice "inv-1" Sample.no_state MoreSamples.form_no_amount
             Sample.env_ok Sample.one_invoice
           = (Normal {| message :=
                          Some "Missing fields. Failed to update invoice";
                        errors := Some errs |}, Sample.one_invoice)
        /\ errs !! "amount"
           = Some ["Please enter an amount greater than $0."])
  /\ (JsNumber.only_ws "   " = true
      /\ exists errs,
           createInvoice Sample.no_state MoreSamples.form_blank_amount
             Sample.env_ok Sample.one_invoice
           = (Normal {| message :=
                          Some "Missing Fields. Failed to Create Invoice.";
                        errors := Some errs |}, Sample.one_invoice)
           /\ updateInvoice "inv-1" Sample.no_state
                MoreSamples.form_blank_amount Sample.env_ok
                Sample.one_invoice
              = (Normal {| message :=
                             Some "Missing fields. Failed to update invoice";
                           errors := Some errs |}, Sample.one_invoice)
           /\ errs !! "amount"
              = Some ["Please enter an amount greater than $0."])
  /\ exists errs,
       createInvoice Sample.no_state MoreSamples.form_file_amount
         Sample.env_ok Sample.one_invoice
       = (Normal {| message :=
                      Some "Missing Fields. Failed to Create Invoice.";
                    errors := Some errs |}, Sample.one_invoice)
       /\ updateInvoice "inv-1" Sample.no_state MoreSamples.form_file_amount
            Sample.env_ok Sample.one_invoice
          = (Normal {| message :=
                         Some "Missing fields. Failed to update invoice";
                       errors := Some errs |}, Sample.one_invoice)
       /\ errs !! "amount" = Some ["Expected number, received nan"].
Proof.
  split; [|split].
  - split; [reflexivity|].
    apply (proj1 (missing_or_blank_amount_is_zero "inv-1" Sample.no_state
                    MoreSamples.form_no_amount Sample.env_ok
                    Sample.one_invoice)).
    left. reflexivity.
  - split; [reflexivity|].
    apply (proj1 (missing_or_blank_amount_is_zero "inv-1" Sample.no_state
                    MoreSamples.form_blank_amount Sample.env_ok
                    Sample.one_invoice)).
    right. exists "   ". split; reflexivity.
  - apply (proj2 (missing_or_blank_amount_is_zero "inv-1" Sample.no_state
                    MoreSamples.form_file_amount Sample.env_ok
                    Sample.one_invoice) {| file_name := "amount.txt" |}).
    reflexivity.
Defined.

(** ** Repeated form entries *)

Lemma get_app_Some (fd extra : FormData) k v :
  get fd k = Some v -> get (fd ++ extra)%list k = Some v.
Proof.
  induction fd as [|[k' v'] fd IH]; simpl; [discriminate|].
  destruct (String.eqb k' k); [trivial|exact IH].
Qed.

(** X18. The first entry of a name wins. Once a form holds a customerId,
    an amount and a status, entries that come after them, among them
    further entries called customerId, amount or status, change nothing
    of what [createInvoice] and [updateInvoice] return and do. *)
Theorem entries_after_complete_form_are_ignored
    (id : string) (st : ActionState) (fd extra : FormData)
    (env : Env) (w : World) :
  is_Some (get fd "customerId") ->
  is_Some (get fd "amount") ->
  is_Some (get fd "status") ->
  createInvoice st (fd ++ extra)%list env w = createInvoice st fd env w
  /\ updateInvoice id st (fd ++ extra)%list env w
     = updateInvoice id st fd env w.
Proof.
  intros [c Hc] [a Ha] [s Hs]. unfold createInvoice, updateInvoice.
  rewrite (get_app_Some fd extra _ _ Hc), (get_app_Some fd extra _ _ Ha),
    (get_app_Some fd extra _ _ Hs), Hc, Ha, Hs.
  split; reflexivity.
Qed.

Lemma entries_after_complete_form_are_ignored_witness :
  is_Some (get Sample.form_12_34 "customerId")
  /\ is_Some (get Sample.form_12_34 "amount")
  /\ is_Some (get Sample.form_12_34 "status")
  /\ createInvoice Sample.no_state
       (Sample.form_12_34 ++ Sample.form_negative_amount)%list Sample.env_ok
       Sample.one_invoice
     = createInvoice Sample.no_state Sample.form_12_34 Sample.env_ok
         Sample.one_invoice.
Proof.
  assert (H1 : is_Some (get Sample.form_12_34 "customerId")) by (now eexists).
  assert (H2 : is_Some (get Sample.form_12_34 "amount")) by (now eexists).
  assert (H3 : is_Some (get Sample.form_12_34 "status")) by (now eexists).
  split; [exact H1|]. split; [exact H2|]. split; [exact H3|].
  exact (proj1 (entries_after_complete_form_are_ignored "inv-1"
                  Sample.no_state Sample.form_12_34
                  Sample.form_negative_amount Sample.env_ok
                  Sample.one_invoice H1 H2 H3)).
Defined.

(** * Properties of the edit page *)

Section EditPageProperties.

Import EditPage.

Context {Invoice Customer : Type}.
Implicit Types (data : DataLayer Invoice Customer) (id : string).

(** X19. The page answers "not found" exactly when both fetches resolved
    and the invoice fetch found nothing. If the customers fetch rejects,
    the page ends with that rejection even for an id that has no
    invoice: the missing invoice is then never looked at. *)
Theorem Page_not_found_needs_both_fetches data id :
  (Page data id = NotFound
   <-> fetchInvoiceById data id = inr None
       /\ exists customers, fetchCustomers data = inr customers)
  /\ (forall reason,
        fetchInvoiceById data id = inr None ->
        fetchCustomers data = inl reason ->
        Page data id = Rejected reason).
Proof.
  unfold Page, Promise_all. split.
  - destruct (fetchInvoiceById data id) as [e1|[invoice|]],
      (fetchCustomers data) as [e2|customers]; split;
      try discriminate; try (intros [H _]; discriminate).
    + intros [_ [cs H]]. discriminate.
    + intros _. eauto.
    + reflexivity.
  - intros reason -> ->. reflexivity.
Qed.

(** X20. When the page renders, the form it shows holds the invoice that
    the fetch for the requested id resolved to and the customers that the
    customers fetch resolved to, and the trail ends with the link to the
    edit page of that same id, marked active, after the link to the
    listing. *)
Theorem Page_renders_the_fetched_invoice data id view :
  Page data id = Render view ->
  fetchInvoiceById data id = inr (Some (form_invoice view))
  /\ fetchCustomers data = inr (form_customers view)
  /\ breadcrumbs view
     = [ {| label := "Invoices"; href := "/dashboard/invoices";
            active := None |};
         {| label := "Edit Invoice";
            href := "/dashboard/invoices/" +:+ id +:+ "/edit";
            active := Some true |} ].
Proof.
  unfold Page, Promise_all.
  destruct (fetchInvoiceById data id) as [e1|[invoice|]],
    (fetchCustomers data) as [e2|customers]; try discriminate.
  intros H. inversion H; subst view. repeat split.
Qed.

End EditPageProperties.

Lemma Page_not_found_needs_both_fetches_witness :
  EditPage.Page
    (MoreSamples.data_layer (inl (OtherError "Failed to fetch customers.")))
    "no-such-id"
  = EditPage.Rejected (OtherError "Failed to fetch customers.")
  /\ EditPage.Page (MoreSamples.data_layer (inr ["Ada"; "Grace"]))
       "no-such-id"
     = EditPage.NotFound.
Proof.
  split.
  - apply (proj2 (Page_not_found_needs_both_fetches
                    (MoreSamples.data_layer
                       (inl (OtherError "Failed to fetch customers.")))
                    "no-such-id")); reflexivity.
  - apply (proj1 (Page_not_found_needs_both_fetches
                    (MoreSamples.data_layer (inr ["Ada"; "Grace"]))
                    "no-such-id")).
    split; [reflexivity|]. eexists. reflexivity.
Defined.

Lemma Page_renders_the_fetched_invoice_witness :
  EditPage.Page (MoreSamples.data_layer (inr ["Ada"; "Grace"])) "inv-1"
  = EditPage.Render
      {| EditPage.breadcrumbs :=
           [ {| EditPage.label := "Invoices";
                EditPage.href := "/dashboard/invoices";
                EditPage.active := None |};
             {| EditPage.label := "Edit Invoice";
                EditPage.href := "/dashboard/invoices/inv-1/edit";
                EditPage.active := Some true |} ];
         EditPage.form_invoice := 500;
         EditPage.form_customers := ["Ada"; "Grace"] |}
  /\ EditPage.fetchInvoiceById
       (MoreSamples.data_layer (inr ["Ada"; "Grace"])) "inv-1"
     = inr (Some 500).
Proof.
  assert (H : EditPage.Page (MoreSamples.data_layer (inr ["Ada"; "Grace"]))
                "inv-1"
              = EditPage.Render
                  {| EditPage.breadcrumbs :=
                       [ {| EditPage.label := "Invoices";
                            EditPage.href := "/dashboard/invoices";
                            EditPage.active := None |};
                         {| EditPage.label := "Edit Invoice";
                            EditPage.href := "/dashboard/invoices/inv-1/edit";
                            EditPage.active := Some true |} ];
                     EditPage.form_invoice := 500;
                     EditPage.form_customers := ["Ada"; "Grace"] |})
    by reflexivity.
  split; [exact H|].
  exact (proj1 (Page_renders_the_fetched_invoice _ _ _ H)).
Defined.
